(** * youtube-transcript-api-GUI: the URL parser and the transcript pipeline

    A shallow embedding of [main.py]: the two worker classes
    ([TranscriptListWorker], [TranscriptWorker]) and the part of
    [MainWindow] that starts a conversion, together with the pieces of the
    Python runtime they call ([str] operations and [urllib.parse]).

    Python [str] values are sequences of Unicode code points and are
    modelled as [list N].  Exceptions are explicit ([result]); network,
    provider and file-system effects are threaded through a small state and
    exception monad that records every external call in a trace. *)

From Stdlib Require Import NArith Lia.
From stdpp Require Import base option list strings gmap.

Set Default Proof Using "Type".

(** ** Python strings *)

Abbreviation pychar := N (only parsing).
Abbreviation pystr := (list N) (only parsing).

(** A string literal of the source, read as code points (ASCII only). *)
Definition py (s : string) : pystr :=
  (λ a, N.of_nat (Ascii.nat_of_ascii a)) <$> String.list_ascii_of_string s.

(** A one-character literal. *)
Definition chr (s : string) : pychar := default 0%N (head (py s)).

Module Py.

(** [c in s] for a single character [c]. *)
Definition char_in (c : pychar) (s : pystr) : bool := bool_decide (c ∈ s).

(** [s.startswith(p)]. *)
Fixpoint startswith (p s : pystr) : bool :=
  match p, s with
  | [], _ => true
  | _ :: _, [] => false
  | a :: p', b :: s' => bool_decide (a = b) && startswith p' s'
  end.

(** [needle in hay]: substring test. *)
Fixpoint contains (needle hay : pystr) : bool :=
  startswith needle hay ||
  match hay with
  | [] => false
  | _ :: hay' => contains needle hay'
  end.

(** [s.find(c)] for a single character; [None] stands for [-1]. *)
Fixpoint find (c : pychar) (s : pystr) : option nat :=
  match s with
  | [] => None
  | a :: s' => if bool_decide (a = c) then Some 0 else S <$> find c s'
  end.

(** [s.find(c, start)]. *)
Definition find_from (c : pychar) (start : nat) (s : pystr) : option nat :=
  (λ i, start + i) <$> find c (drop start s).

(** [s.rfind(c)]. *)
Fixpoint rfind (c : pychar) (s : pystr) : option nat :=
  match s with
  | [] => None
  | a :: s' =>
      match rfind c s' with
      | Some i => Some (S i)
      | None => if bool_decide (a = c) then Some 0 else None
      end
  end.

(** [s.partition(c)]: text before the first [c], whether [c] was found,
    text after it. *)
Definition partition (c : pychar) (s : pystr) : pystr * bool * pystr :=
  match find c s with
  | Some i => (take i s, true, drop (S i) s)
  | None => (s, false, [])
  end.

(** [s.rpartition(c)[2]]: the text after the last [c], or all of [s]. *)
Definition rpartition_tail (c : pychar) (s : pystr) : pystr :=
  match rfind c s with
  | Some i => drop (S i) s
  | None => s
  end.

(** [s.split(c)] for a single-character separator: always at least one
    piece. *)
Fixpoint split (c : pychar) (s : pystr) : list pystr :=
  match s with
  | [] => [[]]
  | a :: s' =>
      if bool_decide (a = c) then [] :: split c s'
      else match split c s' with
           | piece :: rest => (a :: piece) :: rest
           | [] => [[a]]
           end
  end.

(** The idiom [if c in s: s, t = s.split(c, 1)] with [t] preset to the
    empty string: [s] cut at its first [c], if it has one. *)
Definition cut (c : pychar) (s : pystr) : pystr * pystr :=
  match find c s with
  | Some i => (take i s, drop (S i) s)
  | None => (s, [])
  end.

(** [s.split(c, 1)] when it has two pieces. *)
Definition split_once (c : pychar) (s : pystr) : option (pystr * pystr) :=
  match find c s with
  | Some i => Some (take i s, drop (S i) s)
  | None => None
  end.

(** [s.replace(c, '')]: every occurrence of [c] removed. *)
Definition remove_char (c : pychar) (s : pystr) : pystr :=
  filter (λ a, a ≠ c) s.

(** [s.replace(c, d)] for single characters. *)
Definition replace_char (c d : pychar) (s : pystr) : pystr :=
  (λ a, if bool_decide (a = c) then d else a) <$> s.

(** [s.lstrip(chars)]. *)
Fixpoint lstrip (chars : pystr) (s : pystr) : pystr :=
  match s with
  | [] => []
  | a :: s' => if char_in a chars then lstrip chars s' else s
  end.

(** [s.isascii()]. *)
Definition isascii (s : pystr) : bool := forallb (λ a, a <? 128)%N s.

(** [c.isascii() and c.isalpha()] on one character. *)
Definition is_ascii_alpha (c : pychar) : bool :=
  ((65 <=? c) && (c <=? 90) || (97 <=? c) && (c <=? 122))%N.

(** [s.lower()] on ASCII letters; other characters are only passed
    through it where the source has already checked they are ASCII. *)
Definition lower (s : pystr) : pystr :=
  (λ a, if ((65 <=? a) && (a <=? 90))%N then (a + 32)%N else a) <$> s.

(** [str.isspace] on one character, the table of CPython's
    [_PyUnicode_IsWhitespace]. *)
Definition isspace (c : pychar) : bool :=
  ((9 <=? c) && (c <=? 13) || (28 <=? c) && (c <=? 32)
   || (c =? 133) || (c =? 160) || (c =? 5760)
   || (8192 <=? c) && (c <=? 8202)
   || (c =? 8232) || (c =? 8233) || (c =? 8239) || (c =? 8287)
   || (c =? 12288))%N.

(** Dropping leading white space, one half of [s.strip()]. *)
Fixpoint lstrip_space (s : pystr) : pystr :=
  match s with
  | [] => []
  | a :: s' => if isspace a then lstrip_space s' else s
  end.

(** [s.strip()]: white space removed at both ends. *)
Definition strip (s : pystr) : pystr :=
  reverse (lstrip_space (reverse (lstrip_space s))).

End Py.

(** ** Exceptions *)

(** The exception classes the program can meet.  [LibraryError] stands for
    any [Exception] raised inside an external library or by the operating
    system (a provider error, a socket error, a permission error...). *)
Inductive exn : Type :=
| ValueError (msg : pystr)
| KeyError (key : pystr)
| IndexError
| TypeError
| UnicodeEncodeError
| LibraryError (cls msg : pystr).

(** The outcome of an expression: a value or a raised exception. *)
Inductive result (A : Type) : Type :=
| Ok (a : A)
| Raise (e : exn).
Arguments Ok {A} a.
Arguments Raise {A} e.

#[global] Instance result_ret : MRet result := λ A a, Ok a.
#[global] Instance result_bind : MBind result := λ A B f m,
  match m with
  | Ok a => f a
  | Raise e => Raise e
  end.

(** [d[k]] on a dict. *)
Definition dict_getitem {V} (d : gmap (list N) V) (k : pystr) : result V :=
  match d !! k with
  | Some v => Ok v
  | None => Raise (KeyError k)
  end.

(** [l[0]] and [l[-1]] on a list. *)
Definition list_first {A} (l : list A) : result A :=
  match head l with
  | Some a => Ok a
  | None => Raise IndexError
  end.

Definition list_last {A} (l : list A) : result A :=
  match last l with
  | Some a => Ok a
  | None => Raise IndexError
  end.

(** ** urllib.parse

    A transcription of the functions of CPython 3.11's [urllib/parse.py]
    that [urlparse] and [parse_qs] go through, for [str] arguments and the
    default keyword arguments.  Three library routines that work on Unicode
    tables or on IP address syntax are left as parameters; none of them is
    reached on a plain ASCII URL without brackets and percent signs. *)

Class UrllibDeps : Type := {
  (** [unicodedata.normalize('NFKC', s)] *)
  nfkc : pystr → pystr;
  (** [_check_bracketed_host(hostname)]: returns, or raises [ValueError] *)
  check_bracketed_host : pystr → result ();
  (** [unquote(s)] on a string that contains a percent sign *)
  unquote_escaped : pystr → pystr
}.

Module Urllib.

Record SplitResult : Type := mkSplitResult {
  split_scheme : pystr;
  split_netloc : pystr;
  split_path : pystr;
  split_query : pystr;
  split_fragment : pystr
}.

Record ParseResult : Type := mkParseResult {
  scheme : pystr;
  netloc : pystr;
  path : pystr;
  params : pystr;
  query : pystr;
  fragment : pystr
}.

(** [_hostinfo] on a network location: the host and the port, after any
    userinfo.  The attribute [hostname] is this host in lower case. *)
Definition hostinfo (netloc : pystr) : pystr * option pystr :=
  let hostinfo := Py.rpartition_tail (chr "@") netloc in
  let '(_, have_open_br, bracketed) := Py.partition (chr "[") hostinfo in
  let '(hostname, port) :=
    if have_open_br then
      let '(hostname, _, port) := Py.partition (chr "]") bracketed in
      (hostname, (Py.partition (chr ":") port).2)
    else
      let '(hostname, _, port) := Py.partition (chr ":") hostinfo in
      (hostname, port) in
  (hostname, if bool_decide (port = []) then None else Some port).

(** The first entry is the empty scheme. *)
Definition uses_params : list pystr :=
  [] :: (py <$> ["ftp"; "hdl"; "prospero"; "http"; "imap";
                 "https"; "shttp"; "rtsp"; "rtspu"; "sip"; "sips";
                 "mms"; "sftp"; "tel"]%string).

Definition scheme_chars : pystr :=
  py "abcdefghijklmnopqrstuvwxyzABCDEFGHIJKLMNOPQRSTUVWXYZ0123456789+-.".

(** The characters [chr(0)] .. [chr(32)]. *)
Definition WHATWG_C0_CONTROL_OR_SPACE : pystr := N.of_nat <$> seq 0 33.

(** Tab, carriage return, line feed. *)
Definition UNSAFE_URL_BYTES_TO_REMOVE : pystr := [9; 13; 10]%N.

(** [rfind] finds a slash exactly when ['/' in url]. *)
Definition splitparams (url : pystr) : pystr * pystr :=
  match Py.rfind (chr "/") url with
  | Some r =>
      match Py.find_from (chr ";") r url with
      | None => (url, [])
      | Some i => (take i url, drop (S i) url)
      end
  | None =>
      match Py.find (chr ";") url with
      | Some i => (take i url, drop (S i) url)
      | None => (removelast url, url)
      end
  end.

Definition splitnetloc (url : pystr) (start : nat) : pystr * pystr :=
  let delim :=
    foldl (λ delim c,
             match Py.find_from c start url with
             | Some wdelim => delim `min` wdelim
             | None => delim
             end) (length url) (py "/?#") in
  (drop start (take delim url), drop delim url).

Section with_deps.
Context `{UrllibDeps}.

Definition checknetloc (netloc : pystr) : result () :=
  if bool_decide (netloc = []) || Py.isascii netloc then Ok ()
  else
    let n := Py.remove_char (chr "@") netloc in
    let n := Py.remove_char (chr ":") n in
    let n := Py.remove_char (chr "#") n in
    let n := Py.remove_char (chr "?") n in
    let netloc2 := nfkc n in
    if bool_decide (n = netloc2) then Ok ()
    else if existsb (λ c, Py.char_in c netloc2) (py "/?#@:") then
      Raise (ValueError (py "netloc '" ++ netloc ++
                         py "' contains invalid characters under NFKC normalization"))
    else Ok ().

Definition check_bracketed_netloc (netloc : pystr) : result () :=
  let hostname_and_port := Py.rpartition_tail (chr "@") netloc in
  let '(before_bracket, have_open_br, bracketed) :=
    Py.partition (chr "[") hostname_and_port in
  if have_open_br then
    if negb (bool_decide (before_bracket = [])) then
      Raise (ValueError (py "Invalid IPv6 URL"))
    else
      let '(hostname, _, port) := Py.partition (chr "]") bracketed in
      if negb (bool_decide (port = [])) && negb (Py.startswith (py ":") port) then
        Raise (ValueError (py "Invalid IPv6 URL"))
      else check_bracketed_host hostname
  else
    let '(hostname, _, port) := Py.partition (chr ":") hostname_and_port in
    check_bracketed_host hostname.

(** The scheme of [url], if it starts with one, and what follows it. *)
Definition take_scheme (url : pystr) : pystr * pystr :=
  match Py.find (chr ":") url with
  | Some i =>
      if bool_decide (0 < i) && Py.is_ascii_alpha (default 0%N (head url))
         && forallb (λ c, Py.char_in c scheme_chars) (take i url)
      then (Py.lower (take i url), drop (S i) url)
      else ([], url)
  | None => ([], url)
  end.

(** The bracket checks on a network location. *)
Definition check_brackets (netloc : pystr) : result () :=
  if Py.char_in (chr "[") netloc && negb (Py.char_in (chr "]") netloc)
     || Py.char_in (chr "]") netloc && negb (Py.char_in (chr "[") netloc)
  then Raise (ValueError (py "Invalid IPv6 URL"))
  else if Py.char_in (chr "[") netloc && Py.char_in (chr "]") netloc
  then check_bracketed_netloc netloc
  else Ok ().

Definition urlsplit (url : pystr) : result SplitResult :=
  let url := Py.lstrip WHATWG_C0_CONTROL_OR_SPACE url in
  let url := foldl (λ u b, Py.remove_char b u) url UNSAFE_URL_BYTES_TO_REMOVE in
  let '(scheme, url) := take_scheme url in
  '(netloc, url) ←
    (if bool_decide (take 2 url = py "//") then
       let '(netloc, url) := splitnetloc url 2 in
       check_brackets netloc;;
       Ok (netloc, url)
     else Ok ([], url));
  let '(url, fragment) := Py.cut (chr "#") url in
  let '(url, query) := Py.cut (chr "?") url in
  checknetloc netloc;;
  Ok (mkSplitResult scheme netloc url query fragment).

Definition urlparse (url : pystr) : result ParseResult :=
  splitresult ← urlsplit url;
  let '(mkSplitResult scheme netloc url query fragment) := splitresult in
  let '(url, params) :=
    if bool_decide (scheme ∈ uses_params) && Py.char_in (chr ";") url
    then splitparams url
    else (url, []) in
  Ok (mkParseResult scheme netloc url params query fragment).

Definition unquote (s : pystr) : pystr :=
  if negb (Py.char_in (chr "%") s) then s else unquote_escaped s.

(** One iteration of the loop of [parse_qsl]: the pair a field
    contributes, if any. *)
Definition parse_field (name_value : pystr) : option (pystr * pystr) :=
  if bool_decide (name_value = []) then None
  else
    match Py.split_once (chr "=") name_value with
    | None => None
    | Some (nv0, nv1) =>
        if bool_decide (0 < length nv1) then
          let name := unquote (Py.replace_char (chr "+") (chr " ") nv0) in
          let value := unquote (Py.replace_char (chr "+") (chr " ") nv1) in
          Some (name, value)
        else None
    end.

Definition parse_qsl (qs : pystr) : list (pystr * pystr) :=
  let query_args := if bool_decide (qs = []) then [] else Py.split (chr "&") qs in
  omap parse_field query_args.

Definition parse_qs (qs : pystr) : gmap (list N) (list pystr) :=
  foldl (λ parsed_result '(name, value),
           match parsed_result !! name with
           | Some values => <[name := values ++ [value]]> parsed_result
           | None => <[name := [value]]> parsed_result
           end) ∅ (parse_qsl qs).

End with_deps.
End Urllib.

(** ** The world outside the program *)

(** The formatter classes of [youtube_transcript_api.formatters]. *)
Inductive formatter : Type :=
| JSONFormatter
| PrettyPrintFormatter
| TextFormatter
| WebVTTFormatter
| SRTFormatter.

(** What [response.json()] may return: the Python value of a JSON
    document ([None], a [bool], a number, a [str], a [list] or a [dict]).
    A number is kept as it is written.  A dict is kept as the members of
    the object in the order of the document, where a name may occur more
    than once: the dict has the name once, at the place of its first
    occurrence and with its last value. *)
#[warnings="-register-all"] Inductive json : Type :=
| JsonNull
| JsonBool (b : bool)
| JsonNumber (literal : pystr)
| JsonString (s : pystr)
| JsonArray (items : list json)
| JsonObject (members : list (pystr * json)).

(** [doc[key]] for a [str] key: the value under that key in a dict,
    [KeyError] when the dict has no such key, [TypeError] on any other
    value. *)
Definition json_getitem (doc : json) (key : pystr) : result json :=
  match doc with
  | JsonObject members =>
      match last (filter (λ member, member.1 = key) members) with
      | Some member => Ok member.2
      | None => Raise (KeyError key)
      end
  | _ => Raise TypeError
  end.

(** The keys of a dict in the order of iteration: each name of the members
    once, where it first occurs. *)
Fixpoint dict_keys (seen : list pystr) (members : list (pystr * json)) : list pystr :=
  match members with
  | [] => []
  | (name, _) :: members' =>
      if bool_decide (name ∈ seen) then dict_keys seen members'
      else name :: dict_keys (name :: seen) members'
  end.

(** The external services: the transcript provider, its formatters, the
    HTTP client and the operating system.  Each is a fixed answer per
    request for the duration of one operation. *)
Class World : Type := {
  transcript_list : Type;
  transcript : Type;
  response : Type;
  (** [YouTubeTranscriptApi.list_transcripts(video_id)] *)
  list_transcripts : pystr → result transcript_list;
  (** [YouTubeTranscriptApi.get_transcript(video_id, languages=...)]; the
      second argument is [None] when the keyword is left out, which makes
      the provider use its default language selection *)
  get_transcript : pystr → option (list pystr) → result transcript;
  (** [formatter.format_transcript(transcript)] *)
  format_transcript : formatter → transcript → result pystr;
  (** [requests.get(url)] *)
  requests_get : pystr → result response;
  (** [response.json()] *)
  response_json : response → result json;
  (** the error with which the operating system refuses to open a name of
      the working directory for writing, if it does *)
  open_refused : pystr → option exn
}.

(** A text file: the codec it was written with and its text. *)
Record file : Type := mkFile {
  file_encoding : pystr;
  file_text : pystr
}.

(** [text.encode('utf-8')] succeeds unless the text has a surrogate. *)
Definition utf8_encodable (text : pystr) : bool :=
  forallb (λ c, (c <? 55296) || (57343 <? c))%N text.

Section effects.
Context `{World}.

(** The text a Qt error signal carries: a literal of the program or
    [str(e)] of a caught exception. *)
Inductive message : Type :=
| Literal (text : pystr)
| StrOf (e : exn).

Inductive signal : Type :=
| FinishedList (tl : transcript_list)
| FinishedFile (filename : pystr)
| Error (msg : message).

(** Everything an operation does that is visible from outside, in order. *)
Inductive event : Type :=
| CallListTranscripts (video_id : pystr)
| CallGetTranscript (video_id : pystr) (languages : option (list pystr))
| CallRequestsGet (url : pystr)
| OpenForWriting (filename encoding : pystr)
| Emit (s : signal).

Record state : Type := mkState {
  files : gmap (list N) file;
  trace : list event
}.

(** Computations with effects on [state] that may raise. *)
Definition M (A : Type) : Type := state → result A * state.

#[global] Instance M_ret : MRet M := λ A a st, (Ok a, st).
#[global] Instance M_bind : MBind M := λ A B f m st,
  match m st with
  | (Ok a, st') => f a st'
  | (Raise e, st') => (Raise e, st')
  end.

Definition lift {A} (r : result A) : M A := λ st, (r, st).

Definition log (e : event) : M () :=
  λ st, (Ok (), mkState (files st) (trace st ++ [e])).

(** [try: body except ...: handler] where the handler catches every
    exception the model can raise. *)
Definition try_except {A} (body : M A) (handler : exn → M A) : M A :=
  λ st,
    match body st with
    | (Ok a, st') => (Ok a, st')
    | (Raise e, st') => handler e st'
    end.

Definition emit (s : signal) : M () := log (Emit s).

Definition call_list_transcripts (video_id : pystr) : M transcript_list :=
  log (CallListTranscripts video_id);; lift (list_transcripts video_id).

Definition call_get_transcript (video_id : pystr)
    (languages : option (list pystr)) : M transcript :=
  log (CallGetTranscript video_id languages);;
  lift (get_transcript video_id languages).

Definition call_requests_get (url : pystr) : M response :=
  log (CallRequestsGet url);; lift (requests_get url).

Definition store_file (filename : pystr) (f : file) : M () :=
  λ st, (Ok (), mkState (<[filename := f]> (files st)) (trace st)).

(** [with open(filename, 'w', encoding=enc) as f: f.write(text)]: opening
    creates the file or truncates it; the text is encoded when written. *)
Definition write_text_file (filename encoding text : pystr) : M () :=
  log (OpenForWriting filename encoding);;
  match open_refused filename with
  | Some e => lift (Raise e)
  | None =>
      store_file filename (mkFile encoding []);;
      if utf8_encodable text
      then store_file filename (mkFile encoding text)
      else lift (Raise UnicodeEncodeError)
  end.

End effects.

(** ** class TranscriptListWorker *)

Module TranscriptListWorker.
Section methods.
Context `{UrllibDeps} `{World}.

Record t : Type := mk { url : pystr }.

Definition get_video_id (youtube_url : pystr) : result (option pystr) :=
  parsed_url ← Urllib.urlparse youtube_url;
  if Py.contains (py "youtu.be") (Urllib.netloc parsed_url) then
    Ok (Some (drop 1 (Urllib.path parsed_url)))
  else if Py.contains (py "youtube.com") (Urllib.netloc parsed_url) then
    if Py.contains (py "shorts") (Urllib.path parsed_url) then
      segment ← list_last (Py.split (chr "/") (Urllib.path parsed_url));
      Ok (Some segment)
    else
      values ← dict_getitem (Urllib.parse_qs (Urllib.query parsed_url)) (py "v");
      value ← list_first values;
      Ok (Some value)
  else Ok None.

Definition run (self : t) : M () :=
  try_except
    (video_id ← lift (get_video_id (url self));
     match video_id with
     | Some ((_ :: _) as video_id) =>
         transcript_list ← call_list_transcripts video_id;
         emit (FinishedList transcript_list)
     | _ =>
         (* [not video_id]: [None] or the empty string *)
         emit (Error (Literal (py "Could not extract video ID from URL")))
     end)
    (λ e, emit (Error (StrOf e))).

End methods.
End TranscriptListWorker.

(** ** class TranscriptWorker *)

Module TranscriptWorker.
Section methods.
Context `{UrllibDeps} `{World}.

Record t : Type := mk { url : pystr; formatter_name : pystr }.

Definition get_video_id (youtube_url : pystr) : result (option pystr) :=
  parsed_url ← Urllib.urlparse youtube_url;
  if Py.contains (py "youtu.be") (Urllib.netloc parsed_url) then
    Ok (Some (drop 1 (Urllib.path parsed_url)))
  else if Py.contains (py "youtube.com") (Urllib.netloc parsed_url) then
    if Py.contains (py "shorts") (Urllib.path parsed_url) then
      segment ← list_last (Py.split (chr "/") (Urllib.path parsed_url));
      Ok (Some segment)
    else
      values ← dict_getitem (Urllib.parse_qs (Urllib.query parsed_url)) (py "v");
      value ← list_first values;
      Ok (Some value)
  else Ok None.

(** The title is whatever value the reply holds under [title]; the video
    identifier, a [str], when anything fails. *)
Definition get_video_title (video_id : pystr) : M json :=
  try_except
    (let url :=
       py "https://www.youtube.com/oembed?url=http://www.youtube.com/watch?v="
       ++ video_id ++ py "&format=json" in
     response ← call_requests_get url;
     doc ← lift (response_json response);
     lift (json_getitem doc (py "title")))
    (λ _, mret (JsonString video_id)).

Definition invalid_chars : pystr := [60; 62; 58; 34; 47; 92; 124; 63; 42]%N.

(** [sanitize_filename] on a title that is a [str]. *)
Definition sanitize_filename (title : pystr) : pystr :=
  let filename := filter (λ char, negb (Py.char_in char invalid_chars)) title in
  take 50 filename.

(** The body of [sanitize_filename] on the strings that iterating over a
    title yields, when these are not the characters of a [str]: a string
    is kept unless it occurs in [invalid_chars], as [not in] tests it. *)
Definition sanitize_pieces (pieces : list pystr) : pystr :=
  let filename :=
    concat (filter (λ char, negb (Py.contains char invalid_chars)) pieces) in
  take 50 filename.

(** [sanitize_filename] on any title that [get_video_title] may return.
    Iterating over a [str] yields its characters, over a list its items,
    over a dict its keys; [None], a [bool] and a number are not iterable,
    and [not in] on a [str] accepts only a [str] on its left: both raise
    [TypeError]. *)
Definition sanitize_filename_of (title : json) : result pystr :=
  match title with
  | JsonString s => Ok (sanitize_filename s)
  | JsonArray items =>
      pieces ← mapM (λ item, match item with
                             | JsonString s => Ok s
                             | _ => Raise TypeError
                             end) items;
      Ok (sanitize_pieces pieces)
  | JsonObject members => Ok (sanitize_pieces (dict_keys [] members))
  | JsonNull | JsonBool _ | JsonNumber _ => Raise TypeError
  end.

Definition formatters : gmap (list N) (formatter * list N) :=
  list_to_map [
    (py "JSON", (JSONFormatter, py "json"));
    (py "Pretty Print", (PrettyPrintFormatter, py "txt"));
    (py "Text", (TextFormatter, py "txt"));
    (py "WebVTT", (WebVTTFormatter, py "vtt"));
    (py "SRT", (SRTFormatter, py "srt"))
  ].

Definition run (self : t) : M () :=
  try_except
    (video_id ← lift (get_video_id (url self));
     match video_id with
     | Some ((_ :: _) as video_id) =>
         video_title ← get_video_title video_id;
         safe_title ← lift (sanitize_filename_of video_title);
         transcript ← call_get_transcript video_id None;
         '(formatter, ext) ← lift (dict_getitem formatters (formatter_name self));
         formatted_transcript ← lift (format_transcript formatter transcript);
         let filename := safe_title ++ py "." ++ ext in
         write_text_file filename (py "utf-8") formatted_transcript;;
         emit (FinishedFile filename)
     | _ =>
         (* [not video_id]: [None] or the empty string *)
         emit (Error (Literal (py "Could not extract video ID from URL")))
     end)
    (λ e, emit (Error (StrOf e))).

End methods.
End TranscriptWorker.

(** ** class MainWindow *)

Module MainWindow.
Section methods.
Context `{UrllibDeps} `{World}.

(** A combo box: its items and the index of the current one. *)
Record combo : Type := mkCombo {
  items : list pystr;
  current_index : nat
}.

Definition currentText (c : combo) : pystr := default [] (items c !! current_index c).

(** The widgets [start_conversion] reads or writes. *)
Record t : Type := mk {
  url_input : pystr;
  language_combo : combo;
  translation_combo : combo;
  formatter_combo : combo;
  convert_button_enabled : bool;
  status_label : pystr
}.

(** [start_conversion]: the window after the call and the worker it
    starts. *)
Definition start_conversion (self : t) : t * TranscriptWorker.t :=
  let url := Py.strip (url_input self) in
  let self := mk (url_input self) (language_combo self) (translation_combo self)
                 (formatter_combo self) false (py "Obtaining transcript...") in
  (self, TranscriptWorker.mk url (currentText (formatter_combo self))).

(** The conversion as a whole: [start_conversion], then the worker's
    [run] on its thread. *)
Definition convert (self : t) : M () :=
  TranscriptWorker.run (start_conversion self).2.

End methods.
End MainWindow.

(** ** Sample worlds, used to evaluate the model *)

Module Samples.

(** Library routines that are never reached on the sample URLs. *)
#[export] Instance deps : UrllibDeps := {|
  nfkc s := s;
  check_bracketed_host _ := Ok ();
  unquote_escaped s := s
|}.

(** A provider that knows one transcript per video, a formatter that
    prints it as it is, and a metadata endpoint that is down. *)
#[export] Instance offline_metadata : World := {|
  transcript_list := list pystr;
  transcript := pystr;
  response := unit;
  list_transcripts _ := Ok [py "English (en)"];
  get_transcript _ _ := Ok (py "Hi");
  format_transcript _ tr := Ok tr;
  requests_get _ := Raise (LibraryError (py "ConnectionError") (py "unreachable"));
  response_json _ := Ok JsonNull;
  open_refused _ := None
|}.



(** The same provider with a metadata endpoint whose title is a number. *)
Definition number_title : World := {|
  transcript_list := list pystr;
  transcript := pystr;
  response := unit;
  list_transcripts _ := Ok [py "English (en)"];
  get_transcript _ _ := Ok (py "Hi");
  format_transcript _ tr := Ok tr;
  requests_get _ := Ok ();
  response_json _ := Ok (JsonObject [(py "title", JsonNumber (py "123"))]);
  open_refused _ := None
|}.

(** An empty working directory and an empty trace. *)
Definition initial `{World} : state := mkState ∅ [].


(** Two windows that differ in the language and translation chosen. *)
Definition window (language translation : nat) : MainWindow.t :=
  MainWindow.mk (py " https://youtu.be/dQw4w9WgXcQ ")
    (MainWindow.mkCombo [py "English (en)"; py "German (de)"] language)
    (MainWindow.mkCombo [py "French (fr)"; py "Spanish (es)"] translation)
    (MainWindow.mkCombo (py <$> ["JSON"; "Pretty Print"; "Text"; "WebVTT"; "SRT"]%string) 4)
    true [].

End Samples.


(** ** Notions of the specification *)

Module Spec.
Section with_deps.
Context `{UrllibDeps}.

(** The values of the query parameter [name], in the order of the query
    string (blank values are not kept by [parse_qsl]). *)
Definition query_values (name qs : pystr) : list pystr :=
  (filter (λ nv, nv.1 = name) (Urllib.parse_qsl qs)).*2.

End with_deps.

(** The host of a parsed URL: its network location without userinfo and
    port. *)
Definition host (pr : Urllib.ParseResult) : pystr :=
  (Urllib.hostinfo (Urllib.netloc pr)).1.

(** [segment] is one of the segments of [path], the pieces between its
    separators. *)
Definition has_segment (segment path : pystr) : Prop :=
  segment ∈ Py.split (chr "/") path.

(** Text without the characters that structure or escape a query string. *)
Definition plain (s : pystr) : Prop := Forall (λ c, c ∉ py "&=+%") s.

(** A path with its leading separator stripped. *)
Definition strip_leading_separator (path : pystr) : pystr :=
  match path with
  | c :: rest => if bool_decide (c = chr "/") then rest else path
  | [] => []
  end.

(** The final segment of a path: what follows its last separator. *)
Definition final_segment (path : pystr) : pystr :=
  Py.rpartition_tail (chr "/") path.



(** The name under which the window offers each output format. *)
Definition format_name (f : formatter) : pystr :=
  match f with
  | JSONFormatter => py "JSON"
  | PrettyPrintFormatter => py "Pretty Print"
  | TextFormatter => py "Text"
  | WebVTTFormatter => py "WebVTT"
  | SRTFormatter => py "SRT"
  end.

(** The extension of each output format. *)
Definition extension (f : formatter) : pystr :=
  match f with
  | JSONFormatter => py "json"
  | PrettyPrintFormatter => py "txt"
  | TextFormatter => py "txt"
  | WebVTTFormatter => py "vtt"
  | SRTFormatter => py "srt"
  end.

Section with_world.
Context `{World}.

(** The address of the metadata endpoint for a video. *)
Definition oembed_url (video_id : pystr) : pystr :=
  py "https://www.youtube.com/oembed?url=http://www.youtube.com/watch?v="
  ++ video_id ++ py "&format=json".

(** The ways the title lookup can fail: the request does, the reply is
    not JSON, or the document has no [title]. *)
Inductive title_lookup_fails (video_id : pystr) : Prop :=
| network_error e :
    requests_get (oembed_url video_id) = Raise e →
    title_lookup_fails video_id
| not_json r e :
    requests_get (oembed_url video_id) = Ok r →
    response_json r = Raise e →
    title_lookup_fails video_id
| no_title r doc e :
    requests_get (oembed_url video_id) = Ok r →
    response_json r = Ok doc →
    json_getitem doc (py "title") = Raise e →
    title_lookup_fails video_id.

(** The title the pipeline works with: the one the endpoint gives, or the
    video identifier. *)
Definition video_title (video_id : pystr) : json :=
  match requests_get (oembed_url video_id) with
  | Ok r =>
      match response_json r with
      | Ok doc =>
          match json_getitem doc (py "title") with
          | Ok title => title
          | Raise _ => JsonString video_id
          end
      | Raise _ => JsonString video_id
      end
  | Raise _ => JsonString video_id
  end.

(** An event that asks the provider for a transcript asks for the default
    language. *)
Definition default_language_only (e : event) : Prop :=
  match e with
  | CallGetTranscript _ languages => languages = None
  | _ => True
  end.

(** An event that reaches the transcript provider. *)
Definition provider_call (e : event) : Prop :=
  match e with
  | CallListTranscripts _ | CallGetTranscript _ _ => True
  | _ => False
  end.

(** The message of both workers for a URL without a video identifier. *)
Definition rejection : event :=
  Emit (Error (Literal (py "Could not extract video ID from URL"))).

End with_world.

End Spec.

(** ** class MainWindow: the window as a whole and its other slots *)

(** A track of a transcript list, as the window reads it. *)
Record track : Type := mkTrack {
  language : pystr;
  language_code : pystr;
  is_translatable : bool;
  (** the [language] and [language_code] of each translation target *)
  translation_languages : list (pystr * pystr)
}.

(** What the window needs from the objects that travel on the signals. *)
Class ShellDeps `{World} : Type := {
  (** the tracks that iterating over a transcript list yields *)
  tracks : transcript_list → list track;
  (** [str(e)] *)
  exn_str : exn → pystr
}.

Module Window.
Section methods.
Context `{D : UrllibDeps} `{W : World} `{S : !ShellDeps}.

(** The type of the objects on the [finished] signal of the list worker. *)
#[local] Abbreviation TranscriptList := (@transcript_list W).

(** A message box that was shown. *)
Inductive dialog : Type :=
| WarningBox (title text : pystr)
| InformationBox (title text : pystr)
| CriticalBox (title text : pystr).

(** The window: the widgets of [MainWindow.t], the other button, the
    attributes [transcript_list], [list_worker] and [worker], and the
    message boxes shown so far. *)
Record t : Type := mk {
  widgets : MainWindow.t;
  check_button_enabled : bool;
  transcript_list : option TranscriptList;
  list_worker : option TranscriptListWorker.t;
  worker : option TranscriptWorker.t;
  dialogs : list dialog
}.

(** [QComboBox.clear()] and [QComboBox.addItems(texts)]: an empty box
    shows no text; a box keeps its current entry when entries are added. *)
Definition clear (c : MainWindow.combo) : MainWindow.combo :=
  MainWindow.mkCombo [] 0.

Definition addItems (texts : list pystr) (c : MainWindow.combo) : MainWindow.combo :=
  MainWindow.mkCombo (MainWindow.items c ++ texts) (MainWindow.current_index c).

(** The text that an error signal carries. *)
Definition message_text (m : message) : pystr :=
  match m with
  | Literal text => text
  | StrOf e => exn_str e
  end.

(** The format [f"{name} ({code})"] of both boxes. *)
Definition entry (name code : pystr) : pystr := name ++ py " (" ++ code ++ py ")".

(** [__init__]: the window when it opens. *)
Definition init : t :=
  mk (MainWindow.mk []
        (MainWindow.mkCombo [] 0)
        (MainWindow.mkCombo [] 0)
        (MainWindow.mkCombo
           (py <$> ["JSON"; "Pretty Print"; "Text"; "WebVTT"; "SRT"]%string) 0)
        false [])
     true None None None [].

Definition check_transcripts (self : t) : t :=
  let w := widgets self in
  let url := Py.strip (MainWindow.url_input w) in
  if bool_decide (url = []) then
    mk w (check_button_enabled self) (transcript_list self)
       (list_worker self) (worker self)
       (dialogs self ++ [WarningBox (py "Error") (py "Please enter a YouTube URL")])
  else
    mk (MainWindow.mk (MainWindow.url_input w)
          (clear (MainWindow.language_combo w))
          (clear (MainWindow.translation_combo w))
          (MainWindow.formatter_combo w)
          (MainWindow.convert_button_enabled w)
          (py "Checking available transcripts..."))
       false (transcript_list self)
       (Some (TranscriptListWorker.mk url)) (worker self)
       (dialogs self).

(** The worker that [check_transcripts] has just started, if it did. *)
Definition started_list_worker (self : t) : option TranscriptListWorker.t :=
  if bool_decide (Py.strip (MainWindow.url_input (widgets self)) = []) then None
  else Some (TranscriptListWorker.mk (Py.strip (MainWindow.url_input (widgets self)))).

Definition start_conversion (self : t) : t :=
  let '(w, job) := MainWindow.start_conversion (widgets self) in
  mk w (check_button_enabled self) (transcript_list self)
     (list_worker self) (Some job) (dialogs self).

Definition on_transcript_list_received (tl : TranscriptList) (self : t) : t :=
  let w := widgets self in
  let language_combo := clear (MainWindow.language_combo w) in
  let translation_combo := clear (MainWindow.translation_combo w) in
  let languages := (λ tr, entry (language tr) (language_code tr)) <$> tracks tl in
  let language_combo := addItems languages language_combo in
  let translation_combo :=
    foldl (λ combo tr,
             if is_translatable tr then
               addItems ((λ lang, entry lang.1 lang.2) <$> translation_languages tr)
                        combo
             else combo)
          translation_combo (tracks tl) in
  mk (MainWindow.mk (MainWindow.url_input w) language_combo translation_combo
        (MainWindow.formatter_combo w) true (py "Ready to convert"))
     true (Some tl) (list_worker self) (worker self) (dialogs self).

Definition on_conversion_finished (filename : pystr) (self : t) : t :=
  let w := widgets self in
  mk (MainWindow.mk (MainWindow.url_input w) (MainWindow.language_combo w)
        (MainWindow.translation_combo w) (MainWindow.formatter_combo w)
        true (py "Saved as: " ++ filename))
     (check_button_enabled self) (transcript_list self)
     (list_worker self) (worker self)
     (dialogs self
      ++ [InformationBox (py "Success")
            (py "Transcript saved as:" ++ [10%N] ++ filename)]).

Definition on_error (error_message : pystr) (self : t) : t :=
  let w := widgets self in
  mk (MainWindow.mk (MainWindow.url_input w) (MainWindow.language_combo w)
        (MainWindow.translation_combo w) (MainWindow.formatter_combo w)
        false (py "Error occurred"))
     true (transcript_list self) (list_worker self) (worker self)
     (dialogs self
      ++ [CriticalBox (py "Error")
            (py "An error occurred:" ++ [10%N] ++ error_message)]).

(** The connections made in [check_transcripts] and [start_conversion]:
    the slot that each signal of a worker reaches. *)
Definition deliver (s : signal) (self : t) : t :=
  match s with
  | FinishedList tl => on_transcript_list_received tl self
  | FinishedFile filename => on_conversion_finished filename self
  | Error msg => on_error (message_text msg) self
  end.

(** The signals among the events that a run has added to the trace. *)
Definition new_signals (before after : state) : list signal :=
  omap (λ e, match e with Emit s => Some s | _ => None end)
       (drop (length (trace before)) (trace after)).

Definition deliver_all (signals : list signal) (self : t) : t :=
  foldl (λ w s, deliver s w) self signals.

(** A click on "Check Available Transcripts", up to the moment the
    signal of the worker it starts has been handled. *)
Definition check (self : t) (st : state) : t * state :=
  match started_list_worker self with
  | Some job =>
      let st' := (TranscriptListWorker.run job st).2 in
      (deliver_all (new_signals st st') (check_transcripts self), st')
  | None => (check_transcripts self, st)
  end.

(** A click on "Obtain Transcript", up to the moment the signal of the
    worker has been handled. *)
Definition convert (self : t) (st : state) : t * state :=
  let job := (MainWindow.start_conversion (widgets self)).2 in
  let self := start_conversion self in
  let st' := (TranscriptWorker.run job st).2 in
  (deliver_all (new_signals st st') self, st').

End methods.
End Window.

(** ** The window at work

    The window with its workers in flight.  Qt runs each slot to its end on
    the interactive thread; a disabled button takes no click; a worker
    started by a slot runs on its own thread and its one signal reaches the
    connected slot at some later moment.  A step is a user action or the
    completion of a worker. *)

Module Session.
Section steps.
Context `{D : UrllibDeps} `{W : World} `{S : !ShellDeps}.

Record app : Type := mkApp {
  window : Window.t;
  world : state;
  (** the list workers and the conversion workers that have been started
      and whose signal has not been handled yet *)
  list_jobs : list TranscriptListWorker.t;
  jobs : list TranscriptWorker.t
}.

(** Picking the entry [i] of a box; there is nothing to pick beyond its
    entries. *)
Definition pick (i : nat) (c : MainWindow.combo) : MainWindow.combo :=
  if decide (i < length (MainWindow.items c))
  then MainWindow.mkCombo (MainWindow.items c) i
  else c.

(** Typing a URL and picking entries in the three boxes. *)
Definition edit (url : pystr) (language translation format : nat)
    (self : Window.t) : Window.t :=
  let w := Window.widgets self in
  Window.mk (MainWindow.mk url
               (pick language (MainWindow.language_combo w))
               (pick translation (MainWindow.translation_combo w))
               (pick format (MainWindow.formatter_combo w))
               (MainWindow.convert_button_enabled w)
               (MainWindow.status_label w))
            (Window.check_button_enabled self) (Window.transcript_list self)
            (Window.list_worker self) (Window.worker self) (Window.dialogs self).

Inductive step : app → app → Prop :=
| user_edits a url language translation format :
    step a (mkApp (edit url language translation format (window a))
                  (world a) (list_jobs a) (jobs a))
| click_check a :
    Window.check_button_enabled (window a) = true →
    step a (mkApp (Window.check_transcripts (window a)) (world a)
                  (list_jobs a ++ option_list (Window.started_list_worker (window a)))
                  (jobs a))
| click_convert a :
    MainWindow.convert_button_enabled (Window.widgets (window a)) = true →
    step a (mkApp (Window.start_conversion (window a)) (world a) (list_jobs a)
                  (jobs a ++ [(MainWindow.start_conversion
                                 (Window.widgets (window a))).2]))
| list_job_ends a job before after :
    list_jobs a = before ++ job :: after →
    let st' := (TranscriptListWorker.run job (world a)).2 in
    step a (mkApp (Window.deliver_all (Window.new_signals (world a) st') (window a))
                  st' (before ++ after) (jobs a))
| job_ends a job before after :
    jobs a = before ++ job :: after →
    let st' := (TranscriptWorker.run job (world a)).2 in
    step a (mkApp (Window.deliver_all (Window.new_signals (world a) st') (window a))
                  st' (list_jobs a) (before ++ after)).

(** The application when it opens, on some state of the world. *)
Definition start (st : state) : app := mkApp Window.init st [] [].

(** The states the application can reach. *)
Definition reachable (a : app) : Prop := ∃ st, rtc step (start st) a.

End steps.
End Session.

(** ** Notions for the observations on a run *)

Module Observe.
Section with_world.
Context `{World}.

(** An event that is a signal. *)
Definition is_signal (e : event) : Prop :=
  match e with
  | Emit _ => True
  | _ => False
  end.

(** The signals of the list worker: its result or an error. *)
Definition list_signal (s : signal) : Prop :=
  match s with
  | FinishedList _ | Error _ => True
  | FinishedFile _ => False
  end.

(** The signals of the conversion worker: its file name or an error. *)
Definition file_signal (s : signal) : Prop :=
  match s with
  | FinishedFile _ | Error _ => True
  | FinishedList _ => False
  end.

End with_world.
End Observe.

(** ** More sample worlds *)

Module MoreSamples.

Definition english : track :=
  mkTrack (py "English") (py "en") true [(py "German", py "de"); (py "French", py "fr")].

Definition german : track := mkTrack (py "German") (py "de") false [].

(** A provider that lists two tracks and has a transcript; the metadata
    endpoint is down. *)
Definition listing : World := {|
  transcript_list := list track;
  transcript := pystr;
  response := unit;
  list_transcripts _ := Ok [english; german];
  get_transcript _ _ := Ok (py "Hi");
  format_transcript _ tr := Ok tr;
  requests_get _ := Raise (LibraryError (py "ConnectionError") (py "unreachable"));
  response_json _ := Ok JsonNull;
  open_refused _ := None
|}.

(** How the window of the sample reads lists and exceptions. *)
Definition shell : @ShellDeps listing := {|
  tracks := (λ tl : list track, tl) : @transcript_list listing → list track;
  exn_str e :=
    match e with
    | ValueError msg | LibraryError _ msg => msg
    | KeyError key => [39%N] ++ key ++ [39%N]
    | _ => []
    end
|}.

(** A provider without captions for any video. *)
Definition provider_down : World := {|
  transcript_list := list track;
  transcript := pystr;
  response := unit;
  list_transcripts _ := Raise (LibraryError (py "TranscriptsDisabled") (py "no captions"));
  get_transcript _ _ := Raise (LibraryError (py "TranscriptsDisabled") (py "no captions"));
  format_transcript _ tr := Ok tr;
  requests_get _ := Raise (LibraryError (py "ConnectionError") (py "unreachable"));
  response_json _ := Ok JsonNull;
  open_refused _ := None
|}.

(** A formatter whose text has a lone surrogate. *)
Definition surrogate_text : World := {|
  transcript_list := list track;
  transcript := pystr;
  response := unit;
  list_transcripts _ := Ok [english];
  get_transcript _ _ := Ok (py "Hi");
  format_transcript _ tr := Ok (tr ++ [55296%N]);
  requests_get _ := Raise (LibraryError (py "ConnectionError") (py "unreachable"));
  response_json _ := Ok JsonNull;
  open_refused _ := None
|}.

(** A window with a URL typed in, before any check. *)
Definition typed (url : pystr) : @Window.t listing :=
  Session.edit (W := listing) url 0 0 4 (Window.init (W := listing)).

(** The application after typing a short link, after the click on the
    check button, after the list has arrived, and after the click on the
    convert button. *)
Definition a0 : @Session.app listing :=
  Session.mkApp (typed (py "https://youtu.be/dQw4w9WgXcQ")) (mkState ∅ []) [] [].

Definition a1 : @Session.app listing :=
  Session.mkApp (Window.check_transcripts (Session.window a0)) (Session.world a0)
    (Session.list_jobs a0 ++ option_list (Window.started_list_worker (Session.window a0)))
    (Session.jobs a0).

Definition a2 : @Session.app listing :=
  let st' := (TranscriptListWorker.run (H := Samples.deps)
                (TranscriptListWorker.mk (py "https://youtu.be/dQw4w9WgXcQ"))
                (Session.world a1)).2 in
  Session.mkApp
    (Window.deliver_all (S := shell) (Window.new_signals (Session.world a1) st')
       (Session.window a1))
    st' ([] ++ []) (Session.jobs a1).

Definition a3 : @Session.app listing :=
  Session.mkApp (Window.start_conversion (Session.window a2)) (Session.world a2)
    (Session.list_jobs a2)
    (Session.jobs a2 ++ [(MainWindow.start_conversion
                            (Window.widgets (Session.window a2))).2]).

End MoreSamples.

(** * Properties *)

(** ** Python strings *)

Lemma find_Some c s i :
  Py.find c s = Some i → s !! i = Some c ∧ c ∉ take i s.
Proof.
  revert i. induction s as [|a s IH]; intros i; simpl; [done|].
  case_bool_decide as Hac.
  - intros [= <-]. subst. split; [done|]. simpl. apply not_elem_of_nil.
  - destruct (Py.find c s) as [j|] eqn:Hj; simpl; [|done].
    intros [= <-]. destruct (IH j eq_refl) as [Hl Hn]. split; [done|].
    simpl. rewrite not_elem_of_cons. split; [congruence|done].
Qed.

Lemma find_None c s : Py.find c s = None → c ∉ s.
Proof.
  induction s as [|a s IH]; simpl; [intros _; apply not_elem_of_nil|].
  case_bool_decide as Hac; [done|].
  destruct (Py.find c s); simpl; [done|].
  intros _. rewrite not_elem_of_cons. split; [congruence|auto].
Qed.

Lemma find_from_Some c start s i :
  Py.find_from c start s = Some i → start ≤ i ∧ s !! i = Some c.
Proof.
  unfold Py.find_from. destruct (Py.find c (drop start s)) as [j|] eqn:Hj; [|done].
  simpl. intros [= <-]. apply find_Some in Hj as [Hl _].
  rewrite lookup_drop in Hl. split; [lia|done].
Qed.

(** [split] ends with the text after the last separator. *)
Lemma split_rfind c s :
  match Py.rfind c s with
  | None => Py.split c s = [s]
  | Some i => ∃ p ps, Py.split c s = p :: ps ++ [drop (S i) s]
  end.
Proof.
  induction s as [|a s IH]; simpl; [done|].
  destruct (Py.rfind c s) as [i|].
  - destruct IH as (p & ps & ->). case_bool_decide.
    + by exists [], (p :: ps).
    + by exists (a :: p), ps.
  - rewrite IH. case_bool_decide.
    + by exists [], [].
    + done.
Qed.

Lemma split_last c s :
  last (Py.split c s) = Some (Py.rpartition_tail c s).
Proof.
  unfold Py.rpartition_tail. pose proof (split_rfind c s) as Hs.
  destruct (Py.rfind c s) as [i|].
  - destruct Hs as (p & ps & ->).
    by rewrite app_comm_cons, last_snoc.
  - by rewrite Hs.
Qed.

Lemma contains_nil needle : needle ≠ [] → Py.contains needle [] = false.
Proof. by destruct needle. Qed.

Lemma rfind_None c s : Py.rfind c s = None → c ∉ s.
Proof.
  induction s as [|a s IH]; simpl; [intros _; apply not_elem_of_nil|].
  destruct (Py.rfind c s); [done|]. case_bool_decide; [done|].
  intros _. rewrite not_elem_of_cons. split; [congruence|auto].
Qed.

(** [startswith] and [contains] are the prefix and substring relations. *)
Lemma startswith_spec p s : Py.startswith p s = true ↔ ∃ r, s = p ++ r.
Proof.
  revert s. induction p as [|a p IH]; intros s; simpl.
  - split; [by exists s|done].
  - destruct s as [|b s].
    + split; [done|]. by intros [r Hr].
    + rewrite andb_true_iff, bool_decide_eq_true, IH. split.
      * intros [-> [r ->]]. by exists r.
      * intros [r [= -> ->]]. split; [done|by exists r].
Qed.

Lemma contains_spec needle hay :
  Py.contains needle hay = true ↔ ∃ before after, hay = before ++ needle ++ after.
Proof.
  induction hay as [|b hay IH]; simpl.
  - rewrite orb_false_r, startswith_spec. split.
    + intros [r Hr]. by exists [], r.
    + intros (before & after & Heq). symmetry in Heq.
      apply app_eq_nil in Heq as [-> Heq]. by exists after.
  - rewrite orb_true_iff, startswith_spec, IH. split.
    + intros [[r Hr] | (before & after & ->)].
      * by exists [], r.
      * by exists (b :: before), after.
    + intros ([|x before] & after & Heq).
      * left. by exists after.
      * right. injection Heq as -> ->. by exists before, after.
Qed.

Lemma rfind_Some c s i :
  Py.rfind c s = Some i → s !! i = Some c ∧ c ∉ drop (S i) s.
Proof.
  revert i. induction s as [|a s IH]; intros i; simpl; [done|].
  destruct (Py.rfind c s) as [j|] eqn:Hj.
  - intros [= <-]. by apply IH.
  - case_bool_decide as Hac; [|done]. intros [= <-]. subst a.
    split; [done|]. simpl. rewrite drop_0. by apply rfind_None.
Qed.

(** The final segment is what follows the last separator of the path, or
    the whole path when it has none; it has no separator itself. *)
Lemma final_segment_spec (path : pystr) :
  (chr "/" ∉ Spec.final_segment path)
  ∧ ((∃ before, path = before ++ chr "/" :: Spec.final_segment path)
     ∨ ((chr "/" ∉ path) ∧ Spec.final_segment path = path)).
Proof.
  unfold Spec.final_segment, Py.rpartition_tail.
  destruct (Py.rfind (chr "/") path) as [i|] eqn:Hi.
  - apply rfind_Some in Hi as [Hl Hn]. split; [done|]. left.
    exists (take i path). by rewrite take_drop_middle.
  - apply rfind_None in Hi. split; [done|]. by right.
Qed.

(** ** sanitize_filename *)

Lemma filter_Forall_id {A} (P : A → Prop) `{!∀ x, Decision (P x)} (l : list A) :
  Forall P l → filter P l = l.
Proof.
  induction 1 as [|x l Hx _ IH]; [done|].
  by rewrite filter_cons_True, IH.
Qed.


Lemma sanitize_filename_filter (title : pystr) :
  TranscriptWorker.sanitize_filename title
  = take 50 (filter (λ a, a ∉ TranscriptWorker.invalid_chars) title).
Proof.
  unfold TranscriptWorker.sanitize_filename. f_equal.
  apply list_filter_iff. intros a. unfold Py.char_in.
  by rewrite negb_True, bool_decide_spec.
Qed.

Lemma sanitize_filename_clean (title : pystr) :
  Forall (λ a, a ∉ TranscriptWorker.invalid_chars)
         (TranscriptWorker.sanitize_filename title).
Proof.
  rewrite sanitize_filename_filter. apply Forall_take, Forall_forall.
  intros a Ha. by apply list_elem_of_filter in Ha as [Ha _].
Qed.

Lemma sanitize_filename_length (title : pystr) :
  length (TranscriptWorker.sanitize_filename title) ≤ 50.
Proof. rewrite sanitize_filename_filter, length_take. lia. Qed.

(** A title that is already clean and short is kept as it is. *)
Lemma sanitize_filename_id (title : pystr) :
  Forall (λ a, a ∉ TranscriptWorker.invalid_chars) title →
  length title ≤ 50 →
  TranscriptWorker.sanitize_filename title = title.
Proof.
  intros Hclean Hlen.
  rewrite sanitize_filename_filter, filter_Forall_id by done.
  by apply take_ge.
Qed.



(** ** urllib.parse: the shape of a parsed path *)

Lemma head_drop {A} (l : list A) n : head (drop n l) = l !! n.
Proof. rewrite head_lookup, lookup_drop. f_equal. lia. Qed.

Lemma earliest_delim url start cs d :
  (d = length url ∨ ∃ c, c ∈ py "/?#" ∧ url !! d = Some c) →
  Forall (λ c, c ∈ py "/?#") cs →
  let d' := foldl (λ delim c,
                     match Py.find_from c start url with
                     | Some wdelim => delim `min` wdelim
                     | None => delim
                     end) d cs in
  d' = length url ∨ ∃ c, c ∈ py "/?#" ∧ url !! d' = Some c.
Proof.
  revert d. induction cs as [|c cs IH]; intros d Hd Hcs; simpl; [done|].
  inversion_clear Hcs as [|? ? Hc Hcs'].
  apply IH; [|done].
  destruct (Py.find_from c start url) as [w|] eqn:Hw; [|done].
  apply find_from_Some in Hw as [_ Hw].
  destruct (Nat.min_dec d w) as [-> | ->]; [done|].
  right. by exists c.
Qed.

Lemma splitnetloc_rest url start :
  (Urllib.splitnetloc url start).2 = []
  ∨ ∃ c, c ∈ py "/?#" ∧ head (Urllib.splitnetloc url start).2 = Some c.
Proof.
  unfold Urllib.splitnetloc. cbv zeta. cbn [snd].
  pose proof (earliest_delim url start (py "/?#") (length url)) as Hd.
  cbv zeta in Hd. set (d := foldl _ (length url) _) in *.
  destruct Hd as [Hd | (c & Hc & Hl)]; [by left|by apply Forall_forall| |].
  - left. rewrite Hd. by apply drop_all.
  - right. exists c. by rewrite head_drop.
Qed.

Lemma cut_head c s :
  (head s = Some c ∧ (Py.cut c s).1 = [])
  ∨ (head s ≠ Some c ∧ head (Py.cut c s).1 = head s).
Proof.
  unfold Py.cut. destruct (Py.find c s) as [i|] eqn:Hi; simpl.
  - apply find_Some in Hi as [Hl Hn]. destruct i as [|i].
    + left. by rewrite head_lookup.
    + right. destruct s as [|x s]; [done|]. simpl in *.
      split; [|done]. intros [= ->]. apply Hn. left.
  - right. split; [|done]. apply find_None in Hi.
    destruct s as [|x s]; [done|]. intros [= ->]. apply Hi. left.
Qed.

Section urllib_facts.
Context `{UrllibDeps}.

Lemma urlsplit_path url sr :
  Urllib.urlsplit url = Ok sr →
  Urllib.split_netloc sr ≠ [] →
  Urllib.split_path sr = [] ∨ head (Urllib.split_path sr) = Some (chr "/").
Proof.
  unfold Urllib.urlsplit. cbv zeta.
  destruct (Urllib.take_scheme _) as [scheme url2].
  case_bool_decide as Hslashes.
  2:{ cbn [mbind result_bind].
      destruct (Py.cut (chr "#") url2) as [url3 fragment].
      destruct (Py.cut (chr "?") url3) as [url4 query].
      destruct (Urllib.checknetloc []); [|done].
      by intros [= <-]. }
  pose proof (splitnetloc_rest url2 2) as Hrest.
  destruct (Urllib.splitnetloc url2 2) as [netloc rest]. cbn [snd] in Hrest.
  destruct (Urllib.check_brackets netloc); cbn [mbind result_bind]; [|done].
  pose proof (cut_head (chr "#") rest) as Hfrag.
  destruct (Py.cut (chr "#") rest) as [url3 fragment]. cbn [fst] in Hfrag.
  pose proof (cut_head (chr "?") url3) as Hquery.
  destruct (Py.cut (chr "?") url3) as [url4 query]. cbn [fst] in Hquery.
  destruct (Urllib.checknetloc netloc); [|done].
  intros [= <-] _. cbn [Urllib.split_path].
  destruct Hrest as [-> | (c & Hc & Hhead)].
  { left. destruct Hfrag as [[? _] | [_ Hfrag]]; [done|].
    destruct url3; [|done]. by destruct Hquery as [[? _] | [_ ?]]; destruct url4. }
  destruct Hfrag as [[_ ->] | [Hne Hfrag]].
  { left. by destruct Hquery as [[? _] | [_ ?]]; destruct url4. }
  destruct Hquery as [[_ ->] | [Hne' Hquery]]; [by left|].
  right. rewrite Hquery, Hfrag, Hhead. rewrite Hfrag, Hhead in Hne'.
  rewrite Hhead in Hne.
  apply list_elem_of_In in Hc. simpl in Hc.
  destruct Hc as [<- | [<- | [<- | []]]]; done.
Qed.

Lemma head_take_pos {A} (l : list A) i : 0 < i → head (take i l) = head l.
Proof. destruct i; [lia|]. by destruct l. Qed.

Lemma splitparams_head url :
  url = [] ∨ head url = Some (chr "/") →
  (Urllib.splitparams url).1 = [] ∨ head (Urllib.splitparams url).1 = Some (chr "/").
Proof.
  intros [-> | Hhead]; [by left|]. right.
  assert (Hsemi : ∀ i, url !! i = Some (chr ";") → 0 < i).
  { intros [|i] Hi; [|lia]. rewrite <-head_lookup, Hhead in Hi. done. }
  unfold Urllib.splitparams.
  destruct (Py.rfind (chr "/") url) as [r|] eqn:Hr.
  - destruct (Py.find_from (chr ";") r url) as [i|] eqn:Hi; [|done].
    apply find_from_Some in Hi as [_ Hi]. cbn [fst].
    rewrite head_take_pos; [done|by apply Hsemi].
  - apply rfind_None in Hr. destruct url as [|a url]; [done|].
    injection Hhead as ->. destruct Hr. left.
Qed.

Lemma urlparse_path url pr :
  Urllib.urlparse url = Ok pr →
  Urllib.netloc pr ≠ [] →
  Urllib.path pr = [] ∨ head (Urllib.path pr) = Some (chr "/").
Proof.
  unfold Urllib.urlparse.
  destruct (Urllib.urlsplit url) as [sr|] eqn:Hsplit; cbn [mbind result_bind]; [|done].
  pose proof (urlsplit_path url sr Hsplit) as Hpath.
  destruct sr as [scheme netloc path query fragment]. cbn in Hpath.
  destruct (_ && _).
  - pose proof (splitparams_head path) as Hparams.
    destruct (Urllib.splitparams path) as [url' params].
    intros [= <-] Hnetloc. cbn in *. tauto.
  - intros [= <-] Hnetloc. cbn in *. tauto.
Qed.
End urllib_facts.

(** ** urllib.parse: what [parse_qs] holds for a name *)

Section parse_qs_facts.
Context `{UrllibDeps}.

Lemma parse_qs_fold (name : pystr) (pairs : list (pystr * pystr))
    (d : gmap (list N) (list pystr)) :
  foldl (λ parsed_result '(name, value),
           match parsed_result !! name with
           | Some values => <[name := values ++ [value]]> parsed_result
           | None => <[name := [value]]> parsed_result
           end) d pairs !! name
  = let found := (filter (λ nv, nv.1 = name) pairs).*2 in
    match d !! name with
    | Some values => Some (values ++ found)
    | None => match found with [] => None | _ => Some found end
    end.
Proof.
  revert d. induction pairs as [|[n v] pairs IH]; intros d; simpl.
  - destruct (d !! name); [by rewrite app_nil_r|done].
  - rewrite IH. rewrite filter_cons. cbn [fst].
    destruct (decide (n = name)) as [->|Hne].
    + destruct (d !! name) as [values|]; rewrite lookup_insert_eq; cbn.
      * by rewrite <-app_assoc.
      * done.
    + destruct (d !! n); by rewrite lookup_insert_ne.
Qed.

Lemma parse_qs_lookup (name qs : pystr) :
  Urllib.parse_qs qs !! name
  = match Spec.query_values name qs with
    | [] => None
    | values => Some values
    end.
Proof.
  unfold Urllib.parse_qs, Spec.query_values.
  rewrite parse_qs_fold, lookup_empty. cbv zeta.
  by destruct (_.*2).
Qed.

End parse_qs_facts.

(** ** urllib.parse: a query that starts with a plain field *)

Lemma find_app c a b : c ∉ a → Py.find c (a ++ c :: b) = Some (length a).
Proof.
  induction a as [|x a IH]; simpl; intros Hc.
  - by rewrite bool_decide_eq_true_2.
  - apply not_elem_of_cons in Hc as [Hne Hc].
    rewrite bool_decide_eq_false_2 by congruence. by rewrite IH.
Qed.

Lemma find_not_in c a : c ∉ a → Py.find c a = None.
Proof.
  induction a as [|x a IH]; simpl; intros Hc; [done|].
  apply not_elem_of_cons in Hc as [Hne Hc].
  rewrite bool_decide_eq_false_2 by congruence. by rewrite IH.
Qed.

Lemma split_not_in c a : c ∉ a → Py.split c a = [a].
Proof.
  induction a as [|x a IH]; simpl; intros Hc; [done|].
  apply not_elem_of_cons in Hc as [Hne Hc].
  rewrite bool_decide_eq_false_2 by congruence. by rewrite IH.
Qed.

Lemma split_app c a b : c ∉ a → Py.split c (a ++ c :: b) = a :: Py.split c b.
Proof.
  induction a as [|x a IH]; simpl; intros Hc.
  - by rewrite bool_decide_eq_true_2.
  - apply not_elem_of_cons in Hc as [Hne Hc].
    rewrite bool_decide_eq_false_2 by congruence. by rewrite IH.
Qed.

Lemma replace_char_not_in c d s : c ∉ s → Py.replace_char c d s = s.
Proof.
  induction s as [|x s IH]; simpl; intros Hc; [done|].
  apply not_elem_of_cons in Hc as [Hne Hc]. unfold Py.replace_char in *.
  cbn [fmap list_fmap]. rewrite bool_decide_eq_false_2 by congruence.
  f_equal. by apply IH.
Qed.

Lemma plain_not_in (s : pystr) (c : pychar) :
  Spec.plain s → c ∈ py "&=+%" → c ∉ s.
Proof.
  intros Hs Hc Hin. unfold Spec.plain in Hs. rewrite Forall_forall in Hs.
  by apply (Hs c Hin).
Qed.

Section query_facts.
Context `{UrllibDeps}.

Lemma unquote_plain (s : pystr) : Spec.plain s → Urllib.unquote s = s.
Proof.
  intros Hs. unfold Urllib.unquote, Py.char_in.
  rewrite bool_decide_eq_false_2; [done|].
  apply plain_not_in; [done|]. apply list_elem_of_In. vm_compute. auto 10.
Qed.

Lemma parse_field_plain (name value : pystr) :
  Spec.plain name → Spec.plain value → value ≠ [] →
  Urllib.parse_field (name ++ py "=" ++ value) = Some (name, value).
Proof.
  intros Hname Hvalue Hne. unfold Urllib.parse_field.
  rewrite bool_decide_eq_false_2 by (by destruct name).
  unfold Py.split_once. change (py "=" ++ value) with (chr "=" :: value).
  rewrite find_app by (apply plain_not_in; [done|];
                       apply list_elem_of_In; vm_compute; auto 10).
  rewrite take_app_length.
  replace (drop (S (length name)) (name ++ chr "=" :: value)) with value
    by (rewrite cons_middle, app_assoc, drop_app_length';
        [done|rewrite length_app; simpl; lia]).
  rewrite bool_decide_eq_true_2 by (destruct value; [done|simpl; lia]).
  rewrite !replace_char_not_in
    by (apply plain_not_in; [done|]; apply list_elem_of_In; vm_compute; auto 10).
  by rewrite !unquote_plain.
Qed.

(** In a query that starts with [name=value], plain text on both sides
    and the value not empty, the first value of [name] is [value]. *)
Lemma query_values_first (name value rest : pystr) :
  Spec.plain name → Spec.plain value → value ≠ [] →
  rest = [] ∨ head rest = Some (chr "&") →
  head (Spec.query_values name (name ++ py "=" ++ value ++ rest)) = Some value.
Proof.
  intros Hname Hvalue Hne Hrest.
  unfold Spec.query_values, Urllib.parse_qsl.
  rewrite bool_decide_eq_false_2 by (by destruct name).
  assert (Hamp : chr "&" ∉ name ++ py "=" ++ value).
  { rewrite !not_elem_of_app. split; [|split].
    - apply plain_not_in; [done|]. apply list_elem_of_In. vm_compute. auto 10.
    - intros Hin. apply list_elem_of_In in Hin. vm_compute in Hin.
      intuition discriminate.
    - apply plain_not_in; [done|]. apply list_elem_of_In. vm_compute. auto 10. }
  assert (Hsplit : ∃ more,
    Py.split (chr "&") (name ++ py "=" ++ value ++ rest)
    = (name ++ py "=" ++ value) :: more).
  { destruct Hrest as [-> | Hhead].
    - exists []. rewrite app_nil_r. by apply split_not_in.
    - destruct rest as [|c rest]; [done|]. injection Hhead as ->.
      exists (Py.split (chr "&") rest).
      rewrite <-(split_app (chr "&") _ rest Hamp).
      by rewrite <-!app_assoc. }
  destruct Hsplit as [more ->]. cbn [omap list_omap].
  rewrite parse_field_plain by done.
  by rewrite filter_cons_True.
Qed.

(** A leading [v=] without a value contributes nothing. *)
Lemma query_values_blank_v (name rest : pystr) :
  Spec.query_values name (py "v=&" ++ rest) = Spec.query_values name rest.
Proof.
  unfold Spec.query_values, Urllib.parse_qsl.
  rewrite bool_decide_eq_false_2 by done.
  change (py "v=&" ++ rest) with (py "v=" ++ chr "&" :: rest).
  rewrite split_app
    by (intros Hin; apply list_elem_of_In in Hin; vm_compute in Hin;
        intuition discriminate).
  cbn [omap list_omap].
  change (Urllib.parse_field (py "v=")) with (@None (pystr * pystr)).
  destruct rest as [|c rest]; [|by rewrite bool_decide_eq_false_2].
  by rewrite bool_decide_eq_true_2.
Qed.

End query_facts.

(** ** get_video_id *)

Lemma rfind_not_in c s : c ∉ s → Py.rfind c s = None.
Proof.
  induction s as [|a s IH]; simpl; intros Hc; [done|].
  apply not_elem_of_cons in Hc as [Hne Hc].
  rewrite IH by done. by rewrite bool_decide_eq_false_2 by congruence.
Qed.

(** A network location without userinfo, port and bracket is the host. *)
Lemma host_is_netloc (pr : Urllib.ParseResult) :
  chr "@" ∉ Urllib.netloc pr → chr ":" ∉ Urllib.netloc pr →
  chr "[" ∉ Urllib.netloc pr →
  Spec.host pr = Urllib.netloc pr.
Proof.
  intros Hat Hcolon Hbracket.
  unfold Spec.host, Urllib.hostinfo, Py.rpartition_tail, Py.partition.
  by rewrite (rfind_not_in _ _ Hat), (find_not_in _ _ Hbracket),
    (find_not_in _ _ Hcolon).
Qed.

Section get_video_id_facts.
Context `{UrllibDeps}.

(** The two worker classes carry the same extractor. *)
Lemma get_video_id_same (url : pystr) :
  TranscriptWorker.get_video_id url = TranscriptListWorker.get_video_id url.
Proof. reflexivity. Qed.

Lemma contains_nonempty (needle hay : pystr) :
  needle ≠ [] → Py.contains needle hay = true → hay ≠ [].
Proof. intros Hn Hc ->. by rewrite contains_nil in Hc. Qed.

(** The extractor on a short-link host, whatever the rest of the URL. *)
Lemma get_video_id_short_link (url : pystr) (pr : Urllib.ParseResult) :
  Urllib.urlparse url = Ok pr →
  Py.contains (py "youtu.be") (Urllib.netloc pr) = true →
  TranscriptListWorker.get_video_id url
  = Ok (Some (Spec.strip_leading_separator (Urllib.path pr))).
Proof.
  intros Hparse Hhost. unfold TranscriptListWorker.get_video_id.
  rewrite Hparse. cbn [mbind result_bind]. rewrite Hhost. do 2 f_equal.
  destruct (urlparse_path url pr Hparse) as [-> | Hhead].
  - by apply (contains_nonempty (py "youtu.be")).
  - done.
  - destruct (Urllib.path pr) as [|c rest]; [done|].
    injection Hhead as ->. done.
Qed.

(** C2. For every URL whose host (the [netloc] that [urlparse] gives)
    contains [youtu.be], the extractor returns the path of the URL with
    its leading separator stripped; so [https://youtu.be/dQw4w9WgXcQ]
    yields [dQw4w9WgXcQ]. *)
Theorem short_link_yields_stripped_path (url : pystr) (pr : Urllib.ParseResult) :
  Urllib.urlparse url = Ok pr →
  Py.contains (py "youtu.be") (Urllib.netloc pr) = true →
  TranscriptListWorker.get_video_id url
  = Ok (Some (Spec.strip_leading_separator (Urllib.path pr)))
  ∧ TranscriptListWorker.get_video_id (py "https://youtu.be/dQw4w9WgXcQ")
    = Ok (Some (py "dQw4w9WgXcQ")).
Proof.
  intros Hparse Hhost. split.
  - by apply get_video_id_short_link.
  - vm_compute. reflexivity.
Qed.

(** The extractor on a watch URL of the main platform. *)
Lemma get_video_id_watch (url : pystr) (pr : Urllib.ParseResult) (v : pystr) :
  Urllib.urlparse url = Ok pr →
  Py.contains (py "youtu.be") (Urllib.netloc pr) = false →
  Py.contains (py "youtube.com") (Urllib.netloc pr) = true →
  Py.contains (py "shorts") (Urllib.path pr) = false →
  head (Spec.query_values (py "v") (Urllib.query pr)) = Some v →
  TranscriptListWorker.get_video_id url = Ok (Some v).
Proof.
  intros Hparse Hshort Hmain Hshorts Hv.
  unfold TranscriptListWorker.get_video_id.
  rewrite Hparse. cbn [mbind result_bind].
  rewrite Hshort, Hmain, Hshorts.
  unfold dict_getitem. rewrite parse_qs_lookup.
  destruct (Spec.query_values _ _) as [|v' values]; [done|].
  injection Hv as ->. done.
Qed.

(** When the query starts with [v=] and a plain, non-empty value, that
    value is the identifier. *)
Lemma watch_url_leading_v (url : pystr) (pr : Urllib.ParseResult)
    (value rest : pystr) :
  Urllib.urlparse url = Ok pr →
  Py.contains (py "youtu.be") (Urllib.netloc pr) = false →
  Py.contains (py "youtube.com") (Urllib.netloc pr) = true →
  Py.contains (py "shorts") (Urllib.path pr) = false →
  Urllib.query pr = py "v" ++ py "=" ++ value ++ rest →
  Spec.plain value → value ≠ [] →
  rest = [] ∨ head rest = Some (chr "&") →
  TranscriptListWorker.get_video_id url = Ok (Some value).
Proof.
  intros Hparse Hshort Hmain Hshorts Hquery Hvalue Hne Hrest.
  apply (get_video_id_watch url pr); try done.
  rewrite Hquery. apply query_values_first; try done.
  apply Forall_forall. intros c Hc Hin.
  apply list_elem_of_In in Hc, Hin. vm_compute in Hc, Hin.
  destruct Hc as [<- | []]. intuition discriminate.
Qed.

(** Without a [v] parameter the extractor raises [KeyError]. *)
Lemma watch_url_without_v (url : pystr) (pr : Urllib.ParseResult) :
  Urllib.urlparse url = Ok pr →
  Py.contains (py "youtu.be") (Urllib.netloc pr) = false →
  Py.contains (py "youtube.com") (Urllib.netloc pr) = true →
  Py.contains (py "shorts") (Urllib.path pr) = false →
  Spec.query_values (py "v") (Urllib.query pr) = [] →
  TranscriptListWorker.get_video_id url = Raise (KeyError (py "v")).
Proof.
  intros Hparse Hshort Hmain Hshorts Hv.
  unfold TranscriptListWorker.get_video_id.
  rewrite Hparse. cbn [mbind result_bind].
  rewrite Hshort, Hmain, Hshorts.
  unfold dict_getitem. by rewrite parse_qs_lookup, Hv.
Qed.

(** The extractor on a URL of the main platform that is no shorts URL:
    the first value kept for [v], or [KeyError]. *)
Lemma get_video_id_query (url : pystr) (pr : Urllib.ParseResult) :
  Urllib.urlparse url = Ok pr →
  Py.contains (py "youtu.be") (Urllib.netloc pr) = false →
  Py.contains (py "youtube.com") (Urllib.netloc pr) = true →
  Py.contains (py "shorts") (Urllib.path pr) = false →
  TranscriptListWorker.get_video_id url
  = match head (Spec.query_values (py "v") (Urllib.query pr)) with
    | Some v => Ok (Some v)
    | None => Raise (KeyError (py "v"))
    end.
Proof.
  intros Hparse Hshort Hmain Hshorts.
  destruct (Spec.query_values (py "v") (Urllib.query pr)) as [|v values] eqn:Hv.
  - by apply (watch_url_without_v url pr).
  - apply (get_video_id_watch url pr); try done. by rewrite Hv.
Qed.

(** C1, amended. For every URL whose network location (the [netloc] that
    [urlparse] gives, with any userinfo and port) contains [youtube.com]
    and not [youtu.be], and whose path does not contain [shorts] anywhere,
    the extractor returns the first value that [parse_qs] keeps for the
    query parameter [v], and raises [KeyError] when it keeps none.  Blank
    values are not kept: a leading [v=&] is skipped.  When the query
    starts with [v=], then a value that is not empty and has none of the
    characters of [&=+%], and then ends or goes on with [&], that value is
    returned; so [https://www.youtube.com/watch?v=dQw4w9WgXcQ&t=5] yields
    [dQw4w9WgXcQ]. *)
Theorem watch_url_yields_v_parameter (url : pystr) (pr : Urllib.ParseResult) :
  Urllib.urlparse url = Ok pr →
  Py.contains (py "youtu.be") (Urllib.netloc pr) = false →
  Py.contains (py "youtube.com") (Urllib.netloc pr) = true →
  Py.contains (py "shorts") (Urllib.path pr) = false →
  TranscriptListWorker.get_video_id url
  = match head (Spec.query_values (py "v") (Urllib.query pr)) with
    | Some v => Ok (Some v)
    | None => Raise (KeyError (py "v"))
    end
  ∧ (∀ rest, Urllib.query pr = py "v=&" ++ rest →
       Spec.query_values (py "v") (Urllib.query pr)
       = Spec.query_values (py "v") rest)
  ∧ (∀ value rest,
       Urllib.query pr = py "v" ++ py "=" ++ value ++ rest →
       Spec.plain value → value ≠ [] →
       rest = [] ∨ head rest = Some (chr "&") →
       TranscriptListWorker.get_video_id url = Ok (Some value))
  ∧ TranscriptListWorker.get_video_id
      (py "https://www.youtube.com/watch?v=dQw4w9WgXcQ&t=5")
    = Ok (Some (py "dQw4w9WgXcQ")).
Proof.
  intros Hparse Hshort Hmain Hshorts. split; [|split; [|split]].
  - by apply get_video_id_query.
  - intros rest ->. apply query_values_blank_v.
  - intros value rest Hquery Hvalue Hne Hrest.
    by apply (watch_url_leading_v url pr value rest).
  - vm_compute. reflexivity.
Qed.

(** C3, amended. For every URL whose network location (the [netloc] that
    [urlparse] gives, with any userinfo and port) contains [youtube.com]
    and not [youtu.be], and whose path contains [shorts] anywhere, the
    extractor returns the final segment of the path, the text after its
    last separator; so [https://www.youtube.com/shorts/abc123XYZ_] yields
    [abc123XYZ_]. *)
Theorem shorts_url_yields_final_segment (url : pystr) (pr : Urllib.ParseResult) :
  Urllib.urlparse url = Ok pr →
  Py.contains (py "youtu.be") (Urllib.netloc pr) = false →
  Py.contains (py "youtube.com") (Urllib.netloc pr) = true →
  Py.contains (py "shorts") (Urllib.path pr) = true →
  TranscriptListWorker.get_video_id url
  = Ok (Some (Spec.final_segment (Urllib.path pr)))
  ∧ TranscriptListWorker.get_video_id (py "https://www.youtube.com/shorts/abc123XYZ_")
    = Ok (Some (py "abc123XYZ_")).
Proof.
  intros Hparse Hshort Hmain Hshorts. split.
  - unfold TranscriptListWorker.get_video_id.
    rewrite Hparse. cbn [mbind result_bind].
    rewrite Hshort, Hmain, Hshorts.
    unfold list_last. by rewrite split_last.
  - vm_compute. reflexivity.
Qed.

End get_video_id_facts.

(** ** The workers *)

(** Closes a goal about the trace of a finished run: the new events are
    read off the final state. *)
Ltac trace_done :=
  eexists; split;
  [cbn [snd trace]; rewrite <-?app_assoc; reflexivity
  |by repeat constructor].

(** Brings the two sides of an equation on final states to one shape. *)
Ltac run_done := cbn [snd files trace]; rewrite <-?app_assoc; reflexivity.

Section worker_facts.
Context `{UrllibDeps} `{World}.

(** The title lookup always returns, after one request. *)
Lemma get_video_title_run (video_id : pystr) (st : state) :
  TranscriptWorker.get_video_title video_id st
  = (Ok (Spec.video_title video_id),
     mkState (files st) (trace st ++ [CallRequestsGet (Spec.oembed_url video_id)])).
Proof.
  unfold TranscriptWorker.get_video_title, Spec.video_title, try_except,
    call_requests_get, log, lift, mbind, M_bind, mret, M_ret.
  cbv beta iota zeta. fold (Spec.oembed_url video_id).
  destruct (requests_get _) as [r|]; [|done].
  destruct (response_json r) as [doc|]; [|done].
  by destruct (json_getitem doc _).
Qed.

Lemma video_title_fallback (video_id : pystr) :
  Spec.title_lookup_fails video_id →
  Spec.video_title video_id = JsonString video_id.
Proof.
  unfold Spec.video_title.
  intros [e He | r e Hr He | r doc e Hr Hdoc He].
  - by rewrite He.
  - by rewrite Hr, He.
  - by rewrite Hr, Hdoc, He.
Qed.

(** Both workers stop with the same message when the extractor gives
    [None] or the empty string, and do nothing else. *)
Lemma list_worker_rejects (url : pystr) (video_id : option pystr) (st : state) :
  TranscriptListWorker.get_video_id url = Ok video_id →
  video_id = None ∨ video_id = Some [] →
  TranscriptListWorker.run (TranscriptListWorker.mk url) st
  = (Ok (), mkState (files st) (trace st ++ [Spec.rejection])).
Proof.
  intros Hid Hempty.
  unfold TranscriptListWorker.run, try_except, lift, mbind, M_bind.
  cbn [TranscriptListWorker.url]. rewrite Hid.
  by destruct Hempty as [-> | ->].
Qed.

Lemma worker_rejects (url name : pystr) (video_id : option pystr) (st : state) :
  TranscriptWorker.get_video_id url = Ok video_id →
  video_id = None ∨ video_id = Some [] →
  TranscriptWorker.run (TranscriptWorker.mk url name) st
  = (Ok (), mkState (files st) (trace st ++ [Spec.rejection])).
Proof.
  intros Hid Hempty.
  unfold TranscriptWorker.run, try_except, lift, mbind, M_bind.
  cbn [TranscriptWorker.url]. rewrite Hid.
  by destruct Hempty as [-> | ->].
Qed.

(** With an identifier that is not empty the list worker does call the
    provider, and reports its answer or its error. *)
Lemma list_worker_calls_provider (url video_id : pystr) (st : state) :
  TranscriptListWorker.get_video_id url = Ok (Some video_id) →
  video_id ≠ [] →
  TranscriptListWorker.run (TranscriptListWorker.mk url) st
  = (Ok (),
     mkState (files st)
       (trace st ++ [CallListTranscripts video_id;
                     Emit (match list_transcripts video_id with
                           | Ok tl => FinishedList tl
                           | Raise e => Error (StrOf e)
                           end)])).
Proof.
  intros Hid Hne.
  unfold TranscriptListWorker.run, try_except, lift, mbind, M_bind.
  cbn [TranscriptListWorker.url]. rewrite Hid.
  destruct video_id as [|c video_id]; [done|].
  unfold call_list_transcripts, emit, log, lift, mbind, M_bind.
  cbv beta iota zeta. cbn [files trace].
  destruct (list_transcripts _); cbn [files trace]; by rewrite <-app_assoc.
Qed.

(** C4, amended. For every URL whose network location (the [netloc] that
    [urlparse] gives, with any userinfo and port) contains neither
    [youtu.be] nor [youtube.com], the extractor gives no identifier, and
    each worker emits the error message and nothing else: no provider
    call, no request, no file.  [https://vimeo.com/12345] is such a
    URL. *)
Theorem unrecognized_host_is_rejected
    (url name : pystr) (pr : Urllib.ParseResult) (st : state) :
  Urllib.urlparse url = Ok pr →
  Py.contains (py "youtu.be") (Urllib.netloc pr) = false →
  Py.contains (py "youtube.com") (Urllib.netloc pr) = false →
  TranscriptListWorker.get_video_id url = Ok None
  ∧ TranscriptListWorker.run (TranscriptListWorker.mk url) st
    = (Ok (), mkState (files st) (trace st ++ [Spec.rejection]))
  ∧ TranscriptWorker.run (TranscriptWorker.mk url name) st
    = (Ok (), mkState (files st) (trace st ++ [Spec.rejection]))
  ∧ ¬ Spec.provider_call Spec.rejection
  ∧ TranscriptListWorker.get_video_id (py "https://vimeo.com/12345") = Ok None.
Proof.
  intros Hparse Hshort Hmain.
  assert (Hid : TranscriptListWorker.get_video_id url = Ok None).
  { unfold TranscriptListWorker.get_video_id. rewrite Hparse.
    cbn [mbind result_bind]. by rewrite Hshort, Hmain. }
  split; [done|]. split; [|split; [|split]].
  - apply (list_worker_rejects url None); auto.
  - apply (worker_rejects url name None); auto.
  - intros [].
  - vm_compute. reflexivity.
Qed.

(** C9, amended. For a short-link URL whose path is empty once the leading
    separator is stripped, such as [https://youtu.be/], the extractor
    yields the empty identifier; each worker takes it as no identifier,
    emits the error message and calls no provider. *)
Theorem empty_short_link_is_rejected
    (url name : pystr) (pr : Urllib.ParseResult) (st : state) :
  Urllib.urlparse url = Ok pr →
  Py.contains (py "youtu.be") (Urllib.netloc pr) = true →
  Spec.strip_leading_separator (Urllib.path pr) = [] →
  TranscriptListWorker.get_video_id url = Ok (Some [])
  ∧ TranscriptListWorker.run (TranscriptListWorker.mk url) st
    = (Ok (), mkState (files st) (trace st ++ [Spec.rejection]))
  ∧ TranscriptWorker.run (TranscriptWorker.mk url name) st
    = (Ok (), mkState (files st) (trace st ++ [Spec.rejection]))
  ∧ ¬ Spec.provider_call Spec.rejection
  ∧ TranscriptListWorker.get_video_id (py "https://youtu.be/") = Ok (Some []).
Proof.
  intros Hparse Hshort Hempty.
  assert (Hid : TranscriptListWorker.get_video_id url = Ok (Some [])).
  { rewrite (get_video_id_short_link url pr Hparse Hshort). by rewrite Hempty. }
  split; [done|]. split; [|split; [|split]].
  - apply (list_worker_rejects url (Some [])); auto.
  - apply (worker_rejects url name (Some [])); auto.
  - intros [].
  - vm_compute. reflexivity.
Qed.

(** The table of formats: each name of the window with its formatter and
    extension, and nothing else. *)
Lemma formatters_lookup (name : pystr) (fmt : formatter) (ext : pystr) :
  TranscriptWorker.formatters !! name = Some (fmt, ext)
  ↔ name = Spec.format_name fmt ∧ ext = Spec.extension fmt.
Proof.
  split.
  - unfold TranscriptWorker.formatters. cbn [list_to_map foldr].
    intros Hl.
    repeat (apply lookup_insert_Some in Hl as [[<- [= <- <-]] | [_ Hl]]; [done|]).
    by rewrite lookup_empty in Hl.
  - intros [-> ->]. destruct fmt; vm_compute; reflexivity.
Qed.


(** The run of the conversion worker once it has an identifier: the title
    request, then the sanitizing, which may raise; then the fetch and the
    later steps. *)
Lemma worker_fetches (url name video_id : pystr) (st : state) :
  TranscriptWorker.get_video_id url = Ok (Some video_id) →
  video_id ≠ [] →
  TranscriptWorker.run (TranscriptWorker.mk url name) st
  = let titled := trace st ++ [CallRequestsGet (Spec.oembed_url video_id)] in
    match TranscriptWorker.sanitize_filename_of (Spec.video_title video_id) with
    | Raise e => (Ok (), mkState (files st) (titled ++ [Emit (Error (StrOf e))]))
    | Ok safe_title =>
    let st1 := mkState (files st) (titled ++ [CallGetTranscript video_id None]) in
    match get_transcript video_id None with
    | Raise e => (Ok (), mkState (files st) (trace st1 ++ [Emit (Error (StrOf e))]))
    | Ok tr =>
        match TranscriptWorker.formatters !! name with
        | None => (Ok (), mkState (files st)
                            (trace st1 ++ [Emit (Error (StrOf (KeyError name)))]))
        | Some (fmt, ext) =>
            match format_transcript fmt tr with
            | Raise e => (Ok (), mkState (files st) (trace st1 ++ [Emit (Error (StrOf e))]))
            | Ok text =>
                let filename := safe_title ++ py "." ++ ext in
                let opened := trace st1 ++ [OpenForWriting filename (py "utf-8")] in
                match open_refused filename with
                | Some e => (Ok (), mkState (files st) (opened ++ [Emit (Error (StrOf e))]))
                | None =>
                    if utf8_encodable text then
                      (Ok (), mkState (<[filename := mkFile (py "utf-8") text]> (files st))
                                (opened ++ [Emit (FinishedFile filename)]))
                    else
                      (Ok (), mkState (<[filename := mkFile (py "utf-8") []]> (files st))
                                (opened ++ [Emit (Error (StrOf UnicodeEncodeError))]))
                end
            end
        end
    end
    end.
Proof.
  intros Hid Hne.
  unfold TranscriptWorker.run, try_except, lift, mbind, M_bind.
  cbn [TranscriptWorker.url TranscriptWorker.formatter_name]. rewrite Hid.
  destruct video_id as [|c video_id]; [done|].
  rewrite get_video_title_run.
  unfold call_get_transcript, write_text_file, store_file, emit, log, lift,
    dict_getitem, mbind, M_bind.
  cbv beta iota zeta. cbn [files trace].
  destruct (TranscriptWorker.sanitize_filename_of _) as [safe_title|e];
    [|by run_done].
  destruct (get_transcript _ _) as [tr|]; [|by run_done].
  destruct (TranscriptWorker.formatters !! name) as [[fmt ext]|]; [|by run_done].
  destruct (format_transcript fmt tr) as [text|]; [|by run_done].
  cbn [files trace].
  destruct (open_refused _); [by run_done|].
  destruct (utf8_encodable text); cbn [files trace].
  - rewrite insert_insert_eq. by run_done.
  - by run_done.
Qed.

(** The run of the conversion worker when every step succeeds. *)
Lemma worker_succeeds (url name video_id safe_title : pystr) (tr : transcript)
    (fmt : formatter) (ext text : pystr) (st : state) :
  let filename := safe_title ++ py "." ++ ext in
  TranscriptWorker.get_video_id url = Ok (Some video_id) →
  video_id ≠ [] →
  TranscriptWorker.sanitize_filename_of (Spec.video_title video_id) = Ok safe_title →
  get_transcript video_id None = Ok tr →
  TranscriptWorker.formatters !! name = Some (fmt, ext) →
  format_transcript fmt tr = Ok text →
  open_refused filename = None →
  utf8_encodable text = true →
  TranscriptWorker.run (TranscriptWorker.mk url name) st
  = (Ok (),
     mkState (<[filename := mkFile (py "utf-8") text]> (files st))
             (trace st ++ [CallRequestsGet (Spec.oembed_url video_id);
                           CallGetTranscript video_id None;
                           OpenForWriting filename (py "utf-8");
                           Emit (FinishedFile filename)])).
Proof.
  intros filename Hid Hne Hsafe Htr Hfmt Htext Hopen Henc.
  rewrite (worker_fetches url name video_id) by done.
  cbv zeta. rewrite Hsafe, Htr, Hfmt, Htext. fold filename.
  rewrite Hopen, Henc. by run_done.
Qed.

(** Whatever happens, the conversion worker only adds events to the trace,
    and never names a language to the provider. *)
Lemma worker_trace (self : TranscriptWorker.t) (st : state) :
  ∃ events,
    trace (TranscriptWorker.run self st).2 = trace st ++ events
    ∧ Forall Spec.default_language_only events.
Proof.
  destruct self as [url name].
  destruct (TranscriptWorker.get_video_id url) as [[video_id|]|e] eqn:Hid.
  - destruct (decide (video_id = [])) as [->|Hne].
    { rewrite (worker_rejects url name (Some [])) by auto. trace_done. }
    rewrite (worker_fetches url name video_id) by done. cbv zeta.
    destruct (TranscriptWorker.sanitize_filename_of _); [|trace_done].
    destruct (get_transcript _ _) as [tr|]; [|trace_done].
    destruct (TranscriptWorker.formatters !! name) as [[fmt ext]|]; [|trace_done].
    destruct (format_transcript fmt tr) as [text|]; [|trace_done].
    destruct (open_refused _); [trace_done|].
    destruct (utf8_encodable text); trace_done.
  - rewrite (worker_rejects url name None) by auto. trace_done.
  - unfold TranscriptWorker.run, try_except, lift, mbind, M_bind.
    cbn [TranscriptWorker.url]. rewrite Hid. trace_done.
Qed.

(** Once the title has been sanitized, the fetch is made: the run asks
    for the title, then for the transcript of the video, in the default
    language. *)
Lemma worker_asks_provider (url name video_id safe_title : pystr) (st : state) :
  TranscriptWorker.get_video_id url = Ok (Some video_id) →
  video_id ≠ [] →
  TranscriptWorker.sanitize_filename_of (Spec.video_title video_id) = Ok safe_title →
  ∃ rest,
    trace (TranscriptWorker.run (TranscriptWorker.mk url name) st).2
    = trace st ++ [CallRequestsGet (Spec.oembed_url video_id);
                   CallGetTranscript video_id None] ++ rest.
Proof.
  intros Hid Hne Hsafe.
  rewrite (worker_fetches url name video_id) by done. cbv zeta. rewrite Hsafe.
  destruct (get_transcript _ _) as [tr|]; [|eexists; by run_done].
  destruct (TranscriptWorker.formatters !! name) as [[fmt ext]|];
    [|eexists; by run_done].
  destruct (format_transcript fmt tr) as [text|]; [|eexists; by run_done].
  destruct (open_refused _); [eexists; by run_done|].
  destruct (utf8_encodable text); eexists; by run_done.
Qed.


(** C6, amended. When the title lookup fails in any way, [get_video_title]
    returns the video identifier and does not raise; the pipeline goes on,
    and when its other steps succeed it writes the file whose stem is the
    sanitized identifier, which is the identifier itself whenever that has
    at most 50 characters and no forbidden one. *)
Theorem title_lookup_failure_falls_back (video_id : pystr) (st : state) :
  Spec.title_lookup_fails video_id →
  TranscriptWorker.get_video_title video_id st
  = (Ok (JsonString video_id),
     mkState (files st) (trace st ++ [CallRequestsGet (Spec.oembed_url video_id)]))
  ∧ (∀ url name tr fmt ext text,
       let filename := TranscriptWorker.sanitize_filename video_id ++ py "." ++ ext in
       TranscriptWorker.get_video_id url = Ok (Some video_id) →
       video_id ≠ [] →
       get_transcript video_id None = Ok tr →
       TranscriptWorker.formatters !! name = Some (fmt, ext) →
       format_transcript fmt tr = Ok text →
       open_refused filename = None →
       utf8_encodable text = true →
       TranscriptWorker.run (TranscriptWorker.mk url name) st
       = (Ok (),
          mkState (<[filename := mkFile (py "utf-8") text]> (files st))
                  (trace st ++ [CallRequestsGet (Spec.oembed_url video_id);
                                CallGetTranscript video_id None;
                                OpenForWriting filename (py "utf-8");
                                Emit (FinishedFile filename)])))
  ∧ (Forall (λ c, c ∉ TranscriptWorker.invalid_chars) video_id →
     length video_id ≤ 50 →
     TranscriptWorker.sanitize_filename video_id = video_id).
Proof.
  intros Hfails. pose proof (video_title_fallback video_id Hfails) as Htitle.
  split; [|split].
  - by rewrite get_video_title_run, Htitle.
  - intros url name tr fmt ext text filename Hid Hne Htr Hfmt Htext Hopen Henc.
    apply (worker_succeeds url name video_id _ tr fmt ext text); try done.
    by rewrite Htitle.
  - apply sanitize_filename_id.
Qed.

(** C8. The conversion reads the URL field and the chosen format and
    nothing of the language or translation choice: it is the run of the
    worker made from the stripped URL and the name of the format, so two
    windows that agree on the URL and on the format start the same worker
    and have the same run, in every world and from every state; whenever
    the run asks the provider for a transcript it names no language; and
    it does ask, for the video of the URL and without a language, once
    the URL has given an identifier and the title has been sanitized. *)
Theorem language_selection_is_ignored (w1 w2 : MainWindow.t) (st : state) :
  MainWindow.url_input w1 = MainWindow.url_input w2 →
  MainWindow.currentText (MainWindow.formatter_combo w1)
  = MainWindow.currentText (MainWindow.formatter_combo w2) →
  (MainWindow.start_conversion w1).2 = (MainWindow.start_conversion w2).2
  ∧ MainWindow.convert w1 st = MainWindow.convert w2 st
  ∧ (∃ events,
       trace (MainWindow.convert w1 st).2 = trace st ++ events
       ∧ Forall Spec.default_language_only events)
  ∧ MainWindow.convert w1 st
    = TranscriptWorker.run
        (TranscriptWorker.mk (Py.strip (MainWindow.url_input w1))
           (MainWindow.currentText (MainWindow.formatter_combo w1))) st
  ∧ (∀ video_id safe_title,
       TranscriptWorker.get_video_id (Py.strip (MainWindow.url_input w1))
       = Ok (Some video_id) →
       video_id ≠ [] →
       TranscriptWorker.sanitize_filename_of (Spec.video_title video_id)
       = Ok safe_title →
       ∃ rest,
         trace (MainWindow.convert w1 st).2
         = trace st ++ [CallRequestsGet (Spec.oembed_url video_id);
                        CallGetTranscript video_id None] ++ rest).
Proof.
  intros Hurl Hformat.
  assert (Hworker : (MainWindow.start_conversion w1).2
                    = (MainWindow.start_conversion w2).2).
  { unfold MainWindow.start_conversion. cbn [snd MainWindow.formatter_combo].
    by rewrite Hurl, Hformat. }
  split; [done|]. split; [|split; [|split]].
  - unfold MainWindow.convert. by rewrite Hworker.
  - apply worker_trace.
  - done.
  - intros video_id safe_title Hid Hne Hsafe.
    by apply (worker_asks_provider _ _ video_id safe_title).
Qed.

End worker_facts.

(** * Further properties of the code *)

(** ** The extractor: what never reaches the identifier *)

Lemma cut_fst_not_in c s : c ∉ (Py.cut c s).1.
Proof.
  unfold Py.cut. destruct (Py.find c s) as [i|] eqn:Hi; cbn [fst].
  - by apply find_Some in Hi as [_ Hn].
  - by apply find_None.
Qed.

Lemma cut_fst_subseteq c s : (Py.cut c s).1 ⊆ s.
Proof.
  unfold Py.cut. destruct (Py.find c s); cbn [fst]; [apply subseteq_take|done].
Qed.

Lemma removelast_subseteq {A} (l : list A) : removelast l ⊆ l.
Proof.
  induction l as [|a [|b l] IH]; [done| |].
  - intros x Hx. by apply elem_of_nil in Hx.
  - intros x Hx. change (removelast (a :: b :: l)) with (a :: removelast (b :: l)) in Hx.
    apply elem_of_cons in Hx as [-> | Hx]; [left|right; by apply IH].
Qed.

Lemma splitparams_fst_subseteq url : (Urllib.splitparams url).1 ⊆ url.
Proof.
  unfold Urllib.splitparams.
  destruct (Py.rfind _ url).
  - destruct (Py.find_from _ _ url); cbn [fst]; [apply subseteq_take|done].
  - destruct (Py.find _ url); cbn [fst]; [apply subseteq_take|].
    apply removelast_subseteq.
Qed.

Section path_facts.
Context `{UrllibDeps}.

Lemma urlsplit_path_clean url sr :
  Urllib.urlsplit url = Ok sr →
  (chr "?" ∉ Urllib.split_path sr) ∧ (chr "#" ∉ Urllib.split_path sr).
Proof.
  unfold Urllib.urlsplit. cbv zeta.
  destruct (Urllib.take_scheme _) as [scheme url2].
  destruct (if bool_decide _ then _ else _) as [[netloc rest]|];
    cbn [mbind result_bind]; [|done].
  pose proof (cut_fst_not_in (chr "#") rest) as Hfrag.
  destruct (Py.cut (chr "#") rest) as [url3 fragment]. cbn [fst] in Hfrag.
  pose proof (cut_fst_not_in (chr "?") url3) as Hquery.
  pose proof (cut_fst_subseteq (chr "?") url3) as Hsub.
  destruct (Py.cut (chr "?") url3) as [url4 query]. cbn [fst] in Hquery, Hsub.
  destruct (Urllib.checknetloc netloc); [|done].
  intros [= <-]. cbn [Urllib.split_path]. split; [done|].
  intros Hin. by apply Hfrag, Hsub.
Qed.

Lemma urlparse_path_clean url pr :
  Urllib.urlparse url = Ok pr →
  (chr "?" ∉ Urllib.path pr) ∧ (chr "#" ∉ Urllib.path pr).
Proof.
  unfold Urllib.urlparse.
  destruct (Urllib.urlsplit url) as [sr|] eqn:Hsplit; cbn [mbind result_bind]; [|done].
  pose proof (urlsplit_path_clean url sr Hsplit) as [Hq Hf].
  destruct sr as [scheme netloc path query fragment]. cbn in Hq, Hf.
  destruct (_ && _).
  - pose proof (splitparams_fst_subseteq path) as Hsub.
    destruct (Urllib.splitparams path) as [url' params]. cbn [fst] in Hsub.
    intros [= <-]. cbn [Urllib.path]. split; intros Hin; [apply Hq|apply Hf]; by apply Hsub.
  - by intros [= <-].
Qed.

(** X1. The identifier taken from a short link never contains a question
    mark or a hash sign: the query and the fragment of the URL, such as a
    sharing or time parameter, stay out of it. *)
Theorem short_link_id_excludes_query (url video_id : pystr) (pr : Urllib.ParseResult) :
  Urllib.urlparse url = Ok pr →
  Py.contains (py "youtu.be") (Urllib.netloc pr) = true →
  TranscriptListWorker.get_video_id url = Ok (Some video_id) →
  (chr "?" ∉ video_id) ∧ (chr "#" ∉ video_id).
Proof.
  intros Hparse Hhost. unfold TranscriptListWorker.get_video_id.
  rewrite Hparse. cbn [mbind result_bind]. rewrite Hhost. intros [= <-].
  destruct (urlparse_path_clean url pr Hparse) as [Hq Hf].
  split; intros Hin; [apply Hq|apply Hf]; by apply (subseteq_drop 1).
Qed.

(** X2. The identifier taken from a shorts URL never contains a slash, a
    question mark or a hash sign. *)
Theorem shorts_id_is_one_segment (url video_id : pystr) (pr : Urllib.ParseResult) :
  Urllib.urlparse url = Ok pr →
  Py.contains (py "youtu.be") (Urllib.netloc pr) = false →
  Py.contains (py "youtube.com") (Urllib.netloc pr) = true →
  Py.contains (py "shorts") (Urllib.path pr) = true →
  TranscriptListWorker.get_video_id url = Ok (Some video_id) →
  (chr "/" ∉ video_id) ∧ (chr "?" ∉ video_id) ∧ (chr "#" ∉ video_id).
Proof.
  intros Hparse Hshort Hmain Hshorts. unfold TranscriptListWorker.get_video_id.
  rewrite Hparse. cbn [mbind result_bind]. rewrite Hshort, Hmain, Hshorts.
  unfold list_last. rewrite split_last. cbn [mbind result_bind]. intros [= <-].
  destruct (urlparse_path_clean url pr Hparse) as [Hq Hf].
  pose proof (final_segment_spec (Urllib.path pr)) as [Hslash _].
  assert (Hsub : Py.rpartition_tail (chr "/") (Urllib.path pr) ⊆ Urllib.path pr).
  { unfold Py.rpartition_tail. destruct (Py.rfind _ _); [apply subseteq_drop|done]. }
  split; [done|]. split; intros Hin; [apply Hq|apply Hf]; by apply Hsub.
Qed.

End path_facts.

(** ** The extractor: URLs without a network location *)

Lemma lstrip_suffix chars s : Py.lstrip chars s `suffix_of` s.
Proof.
  induction s as [|a s IH]; simpl; [done|].
  destruct (Py.char_in a chars); [by apply suffix_cons_r|done].
Qed.

Lemma remove_char_id c s : c ∉ s → Py.remove_char c s = s.
Proof.
  intros Hc. apply filter_Forall_id, Forall_forall. by intros x Hx ->.
Qed.

Lemma take_scheme_suffix url : (Urllib.take_scheme url).2 `suffix_of` url.
Proof.
  unfold Urllib.take_scheme. destruct (Py.find _ url) as [i|]; [|done].
  destruct (_ && _); cbn [snd]; [apply suffix_drop|done].
Qed.

Lemma suffix_startswith_contains needle s' s :
  s' `suffix_of` s → Py.startswith needle s' = true → Py.contains needle s = true.
Proof.
  intros [k ->] [r ->]%startswith_spec. apply contains_spec. by exists k, r.
Qed.

Section no_netloc.
Context `{UrllibDeps} `{World}.

Lemma urlsplit_without_slashes url :
  Py.contains (py "//") url = false →
  Forall (λ c, c ∉ Urllib.UNSAFE_URL_BYTES_TO_REMOVE) url →
  ∃ sr, Urllib.urlsplit url = Ok sr ∧ Urllib.split_netloc sr = [].
Proof.
  intros Hslashes Hsafe. unfold Urllib.urlsplit. cbv zeta.
  set (url1 := Py.lstrip _ url).
  assert (Hsuffix1 : url1 `suffix_of` url) by apply lstrip_suffix.
  assert (Hclean : foldl (λ u b, Py.remove_char b u) url1
                         Urllib.UNSAFE_URL_BYTES_TO_REMOVE = url1).
  { assert (Hsafe1 : Forall (λ c, c ∉ Urllib.UNSAFE_URL_BYTES_TO_REMOVE) url1).
    { destruct Hsuffix1 as [k Hk]. rewrite Hk in Hsafe.
      by apply Forall_app in Hsafe as [_ ?]. }
    rewrite Forall_forall in Hsafe1. cbn [foldl Urllib.UNSAFE_URL_BYTES_TO_REMOVE].
    rewrite (remove_char_id 9%N url1), (remove_char_id 13%N url1),
      (remove_char_id 10%N url1); [done|..];
      intros Hin; apply (Hsafe1 _ Hin); apply list_elem_of_In; simpl; auto. }
  rewrite Hclean.
  pose proof (take_scheme_suffix url1) as Hsuffix2.
  destruct (Urllib.take_scheme url1) as [scheme url2]. cbn [snd] in Hsuffix2.
  rewrite bool_decide_eq_false_2.
  - cbn [mbind result_bind].
    destruct (Py.cut (chr "#") url2) as [url3 fragment].
    destruct (Py.cut (chr "?") url3) as [url4 query].
    cbn. by eexists.
  - intros Htake.
    assert (Hstarts : Py.startswith (py "//") url2 = true).
    { apply startswith_spec. exists (drop 2 url2).
      by rewrite <-Htake, take_drop. }
    pose proof (suffix_startswith_contains _ _ _
                  (transitivity Hsuffix2 Hsuffix1) Hstarts) as Hcontains.
    congruence.
Qed.

Lemma get_video_id_without_slashes url :
  Py.contains (py "//") url = false →
  Forall (λ c, c ∉ Urllib.UNSAFE_URL_BYTES_TO_REMOVE) url →
  TranscriptListWorker.get_video_id url = Ok None.
Proof.
  intros Hslashes Hsafe.
  destruct (urlsplit_without_slashes url Hslashes Hsafe) as (sr & Hsplit & Hnetloc).
  unfold TranscriptListWorker.get_video_id, Urllib.urlparse. rewrite Hsplit.
  cbn [mbind result_bind].
  destruct sr as [scheme netloc path query fragment]. cbn in Hnetloc. subst netloc.
  by destruct (if _ && _ then _ else _).
Qed.

(** X3. A URL that has no double slash (and no tab or line break), such
    as [youtu.be/dQw4w9WgXcQ] or [www.youtube.com/watch?v=dQw4w9WgXcQ]
    pasted without its scheme, has no network location for the parser: the
    extractor gives no identifier and both workers answer with the error
    message, without any call. *)
Theorem url_without_double_slash_is_rejected (url name : pystr) (st : state) :
  Py.contains (py "//") url = false →
  Forall (λ c, c ∉ Urllib.UNSAFE_URL_BYTES_TO_REMOVE) url →
  TranscriptListWorker.get_video_id url = Ok None
  ∧ TranscriptListWorker.run (TranscriptListWorker.mk url) st
    = (Ok (), mkState (files st) (trace st ++ [Spec.rejection]))
  ∧ TranscriptWorker.run (TranscriptWorker.mk url name) st
    = (Ok (), mkState (files st) (trace st ++ [Spec.rejection])).
Proof.
  intros Hslashes Hsafe.
  pose proof (get_video_id_without_slashes url Hslashes Hsafe) as Hid.
  split; [done|]. split.
  - apply (list_worker_rejects url None); auto.
  - apply (worker_rejects url name None); auto.
Qed.

End no_netloc.

(** ** The workers: errors *)

(** Proves that the listed events are calls, not signals. *)
Ltac calls_ok := repeat (apply Forall_cons_2; [intros []|]); apply Forall_nil_2.

Section worker_errors.
Context `{UrllibDeps} `{World}.

(** An exception of the extractor is caught and reported as it is. *)
Lemma list_worker_reports_exception (url : pystr) (e : exn) (st : state) :
  TranscriptListWorker.get_video_id url = Raise e →
  TranscriptListWorker.run (TranscriptListWorker.mk url) st
  = (Ok (), mkState (files st) (trace st ++ [Emit (Error (StrOf e))])).
Proof.
  intros Hid. unfold TranscriptListWorker.run, try_except, lift, mbind, M_bind.
  cbn [TranscriptListWorker.url]. by rewrite Hid.
Qed.

Lemma worker_reports_exception (url name : pystr) (e : exn) (st : state) :
  TranscriptWorker.get_video_id url = Raise e →
  TranscriptWorker.run (TranscriptWorker.mk url name) st
  = (Ok (), mkState (files st) (trace st ++ [Emit (Error (StrOf e))])).
Proof.
  intros Hid. unfold TranscriptWorker.run, try_except, lift, mbind, M_bind.
  cbn [TranscriptWorker.url]. by rewrite Hid.
Qed.

(** X4. On a URL of the main platform that is neither a short link nor a
    shorts URL and whose query has no value for [v] (none at all, or only
    blank ones), the extractor raises [KeyError('v')]; each worker catches
    it and emits its text as the error, and calls nothing. *)
Theorem missing_v_is_reported
    (url name : pystr) (pr : Urllib.ParseResult) (st : state) :
  Urllib.urlparse url = Ok pr →
  Py.contains (py "youtu.be") (Urllib.netloc pr) = false →
  Py.contains (py "youtube.com") (Urllib.netloc pr) = true →
  Py.contains (py "shorts") (Urllib.path pr) = false →
  Spec.query_values (py "v") (Urllib.query pr) = [] →
  TranscriptListWorker.get_video_id url = Raise (KeyError (py "v"))
  ∧ TranscriptListWorker.run (TranscriptListWorker.mk url) st
    = (Ok (), mkState (files st)
                (trace st ++ [Emit (Error (StrOf (KeyError (py "v"))))]))
  ∧ TranscriptWorker.run (TranscriptWorker.mk url name) st
    = (Ok (), mkState (files st)
                (trace st ++ [Emit (Error (StrOf (KeyError (py "v"))))])).
Proof.
  intros Hparse Hshort Hmain Hshorts Hv.
  pose proof (watch_url_without_v url pr Hparse Hshort Hmain Hshorts Hv) as Hid.
  split; [done|]. split.
  - by apply list_worker_reports_exception.
  - by apply worker_reports_exception.
Qed.

(** X5. A URL that [urlparse] refuses with an exception is reported with
    that exception by each worker, which calls nothing. *)
Theorem unparsable_url_is_reported (url name : pystr) (e : exn) (st : state) :
  Urllib.urlparse url = Raise e →
  TranscriptListWorker.get_video_id url = Raise e
  ∧ TranscriptListWorker.run (TranscriptListWorker.mk url) st
    = (Ok (), mkState (files st) (trace st ++ [Emit (Error (StrOf e))]))
  ∧ TranscriptWorker.run (TranscriptWorker.mk url name) st
    = (Ok (), mkState (files st) (trace st ++ [Emit (Error (StrOf e))])).
Proof.
  intros Hparse.
  assert (Hid : TranscriptListWorker.get_video_id url = Raise e).
  { unfold TranscriptListWorker.get_video_id. by rewrite Hparse. }
  split; [done|]. split.
  - by apply list_worker_reports_exception.
  - by apply worker_reports_exception.
Qed.

(** X6. A format name that is not in the table is found out only after the
    title request and the fetch: once the title has been sanitized, the
    worker then emits [KeyError] with the name, and no file is opened. *)
Theorem unknown_format_fails_after_fetch
    (url name video_id safe_title : pystr) (tr : transcript) (st : state) :
  TranscriptWorker.get_video_id url = Ok (Some video_id) →
  video_id ≠ [] →
  TranscriptWorker.sanitize_filename_of (Spec.video_title video_id) = Ok safe_title →
  get_transcript video_id None = Ok tr →
  TranscriptWorker.formatters !! name = None →
  TranscriptWorker.run (TranscriptWorker.mk url name) st
  = (Ok (),
     mkState (files st)
       (trace st ++ [CallRequestsGet (Spec.oembed_url video_id);
                     CallGetTranscript video_id None;
                     Emit (Error (StrOf (KeyError name)))])).
Proof.
  intros Hid Hne Hsafe Htr Hfmt. rewrite (worker_fetches url name video_id) by done.
  cbv zeta. rewrite Hsafe, Htr, Hfmt. by run_done.
Qed.

(** X7. When the provider fails to give the transcript, the conversion
    worker emits the provider's exception as the error; the title request
    has been made and the title sanitized before, and no file is opened
    or changed. *)
Theorem provider_failure_is_reported
    (url name video_id safe_title : pystr) (e : exn) (st : state) :
  TranscriptWorker.get_video_id url = Ok (Some video_id) →
  video_id ≠ [] →
  TranscriptWorker.sanitize_filename_of (Spec.video_title video_id) = Ok safe_title →
  get_transcript video_id None = Raise e →
  TranscriptWorker.run (TranscriptWorker.mk url name) st
  = (Ok (),
     mkState (files st)
       (trace st ++ [CallRequestsGet (Spec.oembed_url video_id);
                     CallGetTranscript video_id None;
                     Emit (Error (StrOf e))])).
Proof.
  intros Hid Hne Hsafe Htr. rewrite (worker_fetches url name video_id) by done.
  cbv zeta. rewrite Hsafe, Htr. by run_done.
Qed.

(** X8. When the formatted text cannot be encoded (it has a surrogate code
    point), the file has already been opened for writing: the worker emits
    the encoding error and leaves the file empty, whatever it held
    before. *)
Theorem unencodable_text_leaves_empty_file
    (url name video_id safe_title : pystr) (tr : transcript)
    (fmt : formatter) (ext text : pystr) (st : state) :
  let filename := safe_title ++ py "." ++ ext in
  TranscriptWorker.get_video_id url = Ok (Some video_id) →
  video_id ≠ [] →
  TranscriptWorker.sanitize_filename_of (Spec.video_title video_id) = Ok safe_title →
  get_transcript video_id None = Ok tr →
  TranscriptWorker.formatters !! name = Some (fmt, ext) →
  format_transcript fmt tr = Ok text →
  open_refused filename = None →
  utf8_encodable text = false →
  let st' := (TranscriptWorker.run (TranscriptWorker.mk url name) st).2 in
  files st' !! filename = Some (mkFile (py "utf-8") [])
  ∧ last (trace st') = Some (Emit (Error (StrOf UnicodeEncodeError))).
Proof.
  intros filename Hid Hne Hsafe Htr Hfmt Htext Hopen Henc st'. unfold st'.
  rewrite (worker_fetches url name video_id) by done.
  cbv zeta. rewrite Hsafe, Htr, Hfmt, Htext. fold filename. rewrite Hopen, Henc.
  cbn [snd files trace]. split.
  - by rewrite lookup_insert_eq.
  - by rewrite last_snoc.
Qed.



(** Every run of the conversion worker: some calls, then one signal; and
    the files are as before, or differ by the output file. *)
Lemma worker_outcome (self : TranscriptWorker.t) (st : state) :
  ∃ calls sig fs,
    TranscriptWorker.run self st
    = (Ok (), mkState fs (trace st ++ calls ++ [Emit sig]))
    ∧ Forall (λ e, ¬ Observe.is_signal e) calls
    ∧ Observe.file_signal sig
    ∧ (fs = files st
       ∨ ∃ video_id safe_title fmt ext content,
           TranscriptWorker.get_video_id (TranscriptWorker.url self) = Ok (Some video_id)
           ∧ TranscriptWorker.sanitize_filename_of (Spec.video_title video_id)
             = Ok safe_title
           ∧ TranscriptWorker.formatters !! TranscriptWorker.formatter_name self
             = Some (fmt, ext)
           ∧ fs = <[safe_title ++ py "." ++ ext := content]> (files st)).
Proof.
  destruct self as [url name]. cbn [TranscriptWorker.url TranscriptWorker.formatter_name].
  destruct (TranscriptWorker.get_video_id url) as [[video_id|]|e] eqn:Hid.
  - destruct (decide (video_id = [])) as [->|Hne].
    { exists [], (Error (Literal (py "Could not extract video ID from URL"))), (files st).
      rewrite (worker_rejects url name (Some [])) by auto.
      repeat split; auto. }
    rewrite (worker_fetches url name video_id) by done. cbv zeta.
    set (c1 := CallRequestsGet _).
    destruct (TranscriptWorker.sanitize_filename_of _) as [safe_title|e] eqn:Hsafe.
    2:{ exists [c1], (Error (StrOf e)), (files st).
        split; [by run_done|]. split; [calls_ok|]. split; [done|by left]. }
    set (c2 := CallGetTranscript _ _).
    destruct (get_transcript _ _) as [tr|e].
    2:{ exists [c1; c2], (Error (StrOf e)), (files st).
        split; [by run_done|]. split; [calls_ok|]. split; [done|by left]. }
    destruct (TranscriptWorker.formatters !! name) as [[fmt ext]|] eqn:Hfmt.
    2:{ exists [c1; c2], (Error (StrOf (KeyError name))), (files st).
        split; [by run_done|]. split; [calls_ok|]. split; [done|by left]. }
    destruct (format_transcript fmt tr) as [text|e].
    2:{ exists [c1; c2], (Error (StrOf e)), (files st).
        split; [by run_done|]. split; [calls_ok|]. split; [done|by left]. }
    set (c3 := OpenForWriting _ _).
    destruct (open_refused _) as [e|].
    { exists [c1; c2; c3], (Error (StrOf e)), (files st).
      split; [by run_done|]. split; [calls_ok|]. split; [done|by left]. }
    destruct (utf8_encodable text).
    + eexists [c1; c2; c3], (FinishedFile _), _.
      split; [by run_done|]. split; [calls_ok|]. split; [done|].
      right. by eexists video_id, safe_title, fmt, ext, _.
    + eexists [c1; c2; c3], (Error (StrOf UnicodeEncodeError)), _.
      split; [by run_done|]. split; [calls_ok|]. split; [done|].
      right. by eexists video_id, safe_title, fmt, ext, _.
  - exists [], (Error (Literal (py "Could not extract video ID from URL"))), (files st).
    rewrite (worker_rejects url name None) by auto.
    repeat split; auto.
  - exists [], (Error (StrOf e)), (files st).
    rewrite (worker_reports_exception url name e) by done.
    repeat split; auto.
Qed.

(** Every run of the list worker: at most the provider call, then one
    signal; the files are untouched. *)
Lemma list_worker_outcome (self : TranscriptListWorker.t) (st : state) :
  ∃ calls sig,
    TranscriptListWorker.run self st
    = (Ok (), mkState (files st) (trace st ++ calls ++ [Emit sig]))
    ∧ Forall (λ e, ¬ Observe.is_signal e) calls
    ∧ Observe.list_signal sig.
Proof.
  destruct self as [url].
  destruct (TranscriptListWorker.get_video_id url) as [[video_id|]|e] eqn:Hid.
  - destruct (decide (video_id = [])) as [->|Hne].
    { exists [], (Error (Literal (py "Could not extract video ID from URL"))).
      rewrite (list_worker_rejects url (Some [])) by auto. repeat split; auto. }
    rewrite (list_worker_calls_provider url video_id) by done.
    eexists [_], _. split; [reflexivity|]. split; [calls_ok|].
    by destruct (list_transcripts video_id).
  - exists [], (Error (Literal (py "Could not extract video ID from URL"))).
    rewrite (list_worker_rejects url None) by auto. repeat split; auto.
  - exists [], (Error (StrOf e)).
    rewrite (list_worker_reports_exception url e) by done. repeat split; auto.
Qed.

Lemma new_signals_one (st : state) fs calls sig :
  Forall (λ e, ¬ Observe.is_signal e) calls →
  Window.new_signals st (mkState fs (trace st ++ calls ++ [Emit sig])) = [sig].
Proof.
  intros Hcalls. unfold Window.new_signals. cbn [trace].
  rewrite drop_app_length, omap_app. cbn.
  induction Hcalls as [|e calls He _ IH]; [done|].
  cbn. destruct e; try done; by destruct He.
Qed.

(** X9. Every run of a worker emits exactly one signal, as the last thing it
    does: the list worker its result or an error, the conversion worker
    the name of its file or an error. *)
Theorem worker_emits_one_signal
    (lw : TranscriptListWorker.t) (cw : TranscriptWorker.t) (st : state) :
  (∃ sig, Window.new_signals st (TranscriptListWorker.run lw st).2 = [sig]
          ∧ last (trace (TranscriptListWorker.run lw st).2) = Some (Emit sig)
          ∧ Observe.list_signal sig)
  ∧ (∃ sig, Window.new_signals st (TranscriptWorker.run cw st).2 = [sig]
            ∧ last (trace (TranscriptWorker.run cw st).2) = Some (Emit sig)
            ∧ Observe.file_signal sig).
Proof.
  split.
  - destruct (list_worker_outcome lw st) as (calls & sig & -> & Hcalls & Hsig).
    exists sig. cbn [snd trace]. split; [by apply new_signals_one|].
    split; [by rewrite !app_assoc, last_snoc|done].
  - destruct (worker_outcome cw st) as (calls & sig & fs & -> & Hcalls & Hsig & _).
    exists sig. cbn [snd trace]. split; [by apply new_signals_one|].
    split; [by rewrite !app_assoc, last_snoc|done].
Qed.

(** X10. The list worker changes no file, and the conversion worker changes
    at most one: the file named after the sanitized title and the
    extension of the chosen format. *)
Theorem workers_touch_one_file
    (lw : TranscriptListWorker.t) (cw : TranscriptWorker.t) (st : state)
    (name : pystr) :
  files (TranscriptListWorker.run lw st).2 = files st
  ∧ (files (TranscriptWorker.run cw st).2 !! name ≠ files st !! name →
     ∃ video_id safe_title fmt ext,
       TranscriptWorker.get_video_id (TranscriptWorker.url cw) = Ok (Some video_id)
       ∧ TranscriptWorker.sanitize_filename_of (Spec.video_title video_id)
         = Ok safe_title
       ∧ TranscriptWorker.formatters !! TranscriptWorker.formatter_name cw
         = Some (fmt, ext)
       ∧ name = safe_title ++ py "." ++ ext).
Proof.
  split.
  - by destruct (list_worker_outcome lw st) as (calls & sig & -> & _).
  - destruct (worker_outcome cw st) as (calls & sig & fs & -> & _ & _ & Hfs).
    cbn [snd files]. intros Hdiff.
    destruct Hfs as [-> | (video_id & safe_title & fmt & ext & content
                           & Hid & Hsafe & Hfmt & ->)]; [done|].
    exists video_id, safe_title, fmt, ext.
    split; [done|]. split; [done|]. split; [done|].
    destruct (decide (safe_title ++ py "." ++ ext = name)) as [<-|Hne]; [done|].
    by rewrite lookup_insert_ne in Hdiff.
Qed.

End worker_errors.

(** ** sanitize_filename: which titles share a name *)

(** X11. The titles that [sanitize_filename] leaves as they are are
    exactly those with at most 50 characters and no forbidden one. *)
Theorem sanitize_filename_fixed_points (title : pystr) :
  TranscriptWorker.sanitize_filename title = title
  ↔ Forall (λ c, c ∉ TranscriptWorker.invalid_chars) title ∧ length title ≤ 50.
Proof.
  split.
  - intros Heq. split.
    + rewrite <-Heq. apply sanitize_filename_clean.
    + rewrite <-Heq. apply sanitize_filename_length.
  - intros [Hclean Hlen]. by apply sanitize_filename_id.
Qed.

(** X12. A forbidden character leaves no trace: a title with one more
    forbidden character, wherever it stands, gets the same name, so titles
    that differ only in such characters are written to the same file. *)
Theorem sanitize_filename_ignores_forbidden (before after : pystr) (c : pychar) :
  c ∈ TranscriptWorker.invalid_chars →
  TranscriptWorker.sanitize_filename (before ++ c :: after)
  = TranscriptWorker.sanitize_filename (before ++ after).
Proof.
  intros Hc. rewrite !sanitize_filename_filter, !filter_app.
  by rewrite filter_cons_False by (by intros ?).
Qed.

(** X13. Once 50 characters are kept the rest of the title plays no part:
    titles with the same first 50 allowed characters get the same name. *)
Theorem sanitize_filename_ignores_tail (title more : pystr) :
  length (TranscriptWorker.sanitize_filename title) = 50 →
  TranscriptWorker.sanitize_filename (title ++ more)
  = TranscriptWorker.sanitize_filename title.
Proof.
  rewrite !sanitize_filename_filter, filter_app, length_take. intros Hlen.
  apply take_app_le. lia.
Qed.

(** X14. The sanitized name is made of characters of the title in their
    order: nothing is added, replaced or moved. *)
Theorem sanitize_filename_sublist (title : pystr) :
  TranscriptWorker.sanitize_filename title `sublist_of` title.
Proof.
  rewrite sanitize_filename_filter.
  etransitivity; [apply sublist_take|apply sublist_filter].
Qed.

Lemma contains_singleton (c : pychar) (hay : pystr) :
  Py.contains [c] hay = Py.char_in c hay.
Proof.
  unfold Py.char_in. induction hay as [|a hay IH]; [done|].
  cbn [Py.contains Py.startswith]. rewrite IH.
  destruct (decide (c = a)) as [->|Hne].
  - rewrite bool_decide_eq_true_2 by done. cbn.
    symmetry. apply bool_decide_eq_true_2. left.
  - rewrite (bool_decide_eq_false_2 (c = a)) by done. cbn.
    apply bool_decide_ext. rewrite elem_of_cons.
    split; [by right|by intros [?|?]].
Qed.

(** X27. A title that comes as a list of one-character strings gets the
    name of the string of these characters: [sanitize_filename] treats
    the items of a list as it treats the characters of a string. *)
Theorem sanitize_filename_of_characters (title : pystr) :
  TranscriptWorker.sanitize_filename_of
    (JsonArray ((λ char, JsonString [char]) <$> title))
  = Ok (TranscriptWorker.sanitize_filename title).
Proof.
  unfold TranscriptWorker.sanitize_filename_of.
  assert (Hitems : mapM (λ item, match item with
                                  | JsonString s => Ok s
                                  | _ => @Raise pystr TypeError
                                  end) ((λ char, JsonString [char]) <$> title)
                   = Ok ((λ char, [char]) <$> title)).
  { induction title as [|c title IH]; [done|]. cbn. by rewrite IH. }
  rewrite Hitems. cbn [mbind result_bind]. f_equal.
  unfold TranscriptWorker.sanitize_pieces, TranscriptWorker.sanitize_filename.
  f_equal. clear Hitems. induction title as [|c title IH]; [done|].
  cbn [fmap list_fmap]. rewrite !filter_cons, contains_singleton.
  destruct (decide _); [|exact IH].
  cbn [concat app]. f_equal. exact IH.
Qed.

(** ** The workers: the title and the provider *)

Section worker_more.
Context `{UrllibDeps} `{World}.

(** X15. When the metadata endpoint answers with a JSON object that has a
    [title], [get_video_title] returns that title, whatever kind of value
    it is and the last one if the object gives several, after exactly one
    request to the oEmbed address of the video. *)
Theorem get_video_title_uses_endpoint_title
    (video_id : pystr) (title : json) (r : response)
    (before after : list (pystr * json)) (st : state) :
  requests_get (Spec.oembed_url video_id) = Ok r →
  response_json r = Ok (JsonObject (before ++ (py "title", title) :: after)) →
  Forall (λ member, member.1 ≠ py "title") after →
  TranscriptWorker.get_video_title video_id st
  = (Ok title,
     mkState (files st) (trace st ++ [CallRequestsGet (Spec.oembed_url video_id)])).
Proof.
  intros Hr Hdoc Hafter. rewrite get_video_title_run. unfold Spec.video_title.
  rewrite Hr, Hdoc. cbn [json_getitem].
  rewrite filter_app, filter_cons_True by done.
  replace (filter _ after) with (@nil (pystr * json)); [by rewrite last_snoc|].
  clear Hdoc. induction Hafter as [|member after Hm _ IH]; [done|].
  by rewrite filter_cons_False.
Qed.

(** X16. With an identifier that is not empty the list worker asks the
    provider once, for that identifier, and emits the list it gets, or the
    provider's exception as the error. *)
Theorem list_worker_reports_provider (url video_id : pystr) (st : state) :
  TranscriptListWorker.get_video_id url = Ok (Some video_id) →
  video_id ≠ [] →
  (∀ tl, list_transcripts video_id = Ok tl →
         TranscriptListWorker.run (TranscriptListWorker.mk url) st
         = (Ok (), mkState (files st)
                     (trace st ++ [CallListTranscripts video_id;
                                   Emit (FinishedList tl)])))
  ∧ (∀ e, list_transcripts video_id = Raise e →
          TranscriptListWorker.run (TranscriptListWorker.mk url) st
          = (Ok (), mkState (files st)
                      (trace st ++ [CallListTranscripts video_id;
                                    Emit (Error (StrOf e))]))).
Proof.
  intros Hid Hne.
  split; intros x Hx; rewrite (list_worker_calls_provider url video_id) by done;
    by rewrite Hx.
Qed.

End worker_more.

(** ** Python strings: white space at the ends *)

Lemma lstrip_space_spaces ws s :
  Forall (λ c, Py.isspace c = true) ws →
  Py.lstrip_space (ws ++ s) = Py.lstrip_space s.
Proof.
  induction 1 as [|c ws Hc _ IH]; [done|]. simpl. by rewrite Hc.
Qed.

Lemma lstrip_space_app s ws :
  Forall (λ c, Py.isspace c = true) ws →
  Py.lstrip_space (s ++ ws)
  = match Py.lstrip_space s with
    | [] => []
    | rest => rest ++ ws
    end.
Proof.
  intros Hws. induction s as [|c s IH]; simpl.
  - rewrite <-(app_nil_r ws). by rewrite lstrip_space_spaces.
  - destruct (Py.isspace c); [done|done].
Qed.

Lemma strip_padding ws1 ws2 s :
  Forall (λ c, Py.isspace c = true) ws1 →
  Forall (λ c, Py.isspace c = true) ws2 →
  Py.strip (ws1 ++ s ++ ws2) = Py.strip s.
Proof.
  intros Hws1 Hws2. unfold Py.strip.
  rewrite lstrip_space_spaces, lstrip_space_app by done.
  destruct (Py.lstrip_space s) as [|c rest]; [done|].
  rewrite reverse_app, lstrip_space_spaces; [done|].
  by apply Forall_reverse.
Qed.

Lemma strip_spaces ws :
  Forall (λ c, Py.isspace c = true) ws → Py.strip ws = [].
Proof.
  intros Hws. unfold Py.strip.
  rewrite <-(app_nil_r ws), lstrip_space_spaces by done. done.
Qed.

(** ** The window: one click and its outcome *)

Section window_facts.
Context `{D : UrllibDeps} `{W : World} `{S : !ShellDeps}.

(** X17. A click on the check button with an empty URL field, or one with
    white space only, shows the warning and does nothing else: no worker
    is started, the world is untouched, buttons and boxes stay as they
    are. *)
Theorem check_with_blank_url (self : Window.t) (st : state) :
  Forall (λ c, Py.isspace c = true) (MainWindow.url_input (Window.widgets self)) →
  Window.check self st
  = (Window.mk (Window.widgets self) (Window.check_button_enabled self)
       (Window.transcript_list self) (Window.list_worker self) (Window.worker self)
       (Window.dialogs self
        ++ [Window.WarningBox (py "Error") (py "Please enter a YouTube URL")]),
     st).
Proof.
  intros Hblank. apply strip_spaces in Hblank.
  unfold Window.check, Window.started_list_worker, Window.check_transcripts.
  cbv zeta. by rewrite Hblank.
Qed.

(** X18. White space around the URL in the field changes nothing: the
    list worker and the conversion worker are started with the same
    URL. *)
Theorem url_padding_is_ignored (w1 w2 : Window.t) (ws1 ws2 : pystr) :
  Forall (λ c, Py.isspace c = true) ws1 →
  Forall (λ c, Py.isspace c = true) ws2 →
  MainWindow.url_input (Window.widgets w1)
  = ws1 ++ MainWindow.url_input (Window.widgets w2) ++ ws2 →
  MainWindow.currentText (MainWindow.formatter_combo (Window.widgets w1))
  = MainWindow.currentText (MainWindow.formatter_combo (Window.widgets w2)) →
  Window.started_list_worker w1 = Window.started_list_worker w2
  ∧ (MainWindow.start_conversion (Window.widgets w1)).2
    = (MainWindow.start_conversion (Window.widgets w2)).2.
Proof.
  intros Hws1 Hws2 Hurl Hformat.
  unfold Window.started_list_worker, MainWindow.start_conversion.
  cbn [snd MainWindow.formatter_combo].
  by rewrite Hurl, strip_padding, Hformat.
Qed.

(** The entries that [on_transcript_list_received] leaves in the
    translation box. *)
Lemma translation_entries (trs : list track) (c : MainWindow.combo) :
  foldl (λ combo tr,
           if is_translatable tr then
             Window.addItems
               ((λ lang, Window.entry lang.1 lang.2) <$> translation_languages tr)
               combo
           else combo) c trs
  = MainWindow.mkCombo
      (MainWindow.items c
       ++ (tr ← filter (λ tr, is_translatable tr = true) trs;
           (λ lang, Window.entry lang.1 lang.2) <$> translation_languages tr))
      (MainWindow.current_index c).
Proof.
  revert c. induction trs as [|tr trs IH]; intros [items index]; cbn [foldl].
  - cbn. by rewrite app_nil_r.
  - rewrite IH, filter_cons. destruct (is_translatable tr) eqn:Htr.
    + rewrite decide_True by done. cbn. by rewrite <-app_assoc.
    + rewrite decide_False by done. done.
Qed.

(** X19. When the provider lists the tracks, a click on the check button
    ends with both buttons enabled, the list kept by the window, one entry
    [language (code)] per track in the language box, in the order of the
    list, and in the translation box the targets of the translatable
    tracks, track after track. *)
Theorem check_lists_tracks
    (self : Window.t) (st : state) (video_id : pystr) (tl : transcript_list) :
  let url := Py.strip (MainWindow.url_input (Window.widgets self)) in
  url ≠ [] →
  TranscriptListWorker.get_video_id url = Ok (Some video_id) →
  video_id ≠ [] →
  list_transcripts video_id = Ok tl →
  let w := (Window.check self st).1 in
  trace (Window.check self st).2
  = trace st ++ [CallListTranscripts video_id; Emit (FinishedList tl)]
  ∧ MainWindow.convert_button_enabled (Window.widgets w) = true
  ∧ Window.check_button_enabled w = true
  ∧ Window.transcript_list w = Some tl
  ∧ MainWindow.items (MainWindow.language_combo (Window.widgets w))
    = (λ tr, language tr ++ py " (" ++ language_code tr ++ py ")") <$> tracks tl
  ∧ MainWindow.items (MainWindow.translation_combo (Window.widgets w))
    = (tr ← filter (λ tr, is_translatable tr = true) (tracks tl);
       (λ lang, lang.1 ++ py " (" ++ lang.2 ++ py ")") <$> translation_languages tr)
  ∧ Window.dialogs w = Window.dialogs self.
Proof.
  intros url Hurl Hid Hne Htl w. unfold w, Window.check, Window.started_list_worker.
  fold url. rewrite bool_decide_eq_false_2 by done. cbv zeta.
  rewrite (list_worker_calls_provider url video_id) by done. rewrite Htl.
  cbn [snd fst trace].
  assert (Hsignals := new_signals_one st (files st) [CallListTranscripts video_id]
                        (FinishedList tl) ltac:(calls_ok)).
  cbn [app] in Hsignals. rewrite Hsignals.
  cbn [Window.deliver_all foldl Window.deliver].
  unfold Window.on_transcript_list_received, Window.check_transcripts.
  fold url. rewrite bool_decide_eq_false_2 by done. cbv zeta.
  cbn [Window.widgets Window.check_button_enabled Window.transcript_list
       Window.dialogs MainWindow.convert_button_enabled
       MainWindow.language_combo MainWindow.translation_combo MainWindow.items].
  rewrite translation_entries.
  repeat split; done.
Qed.

(** A click with its worker, seen as one signal delivered to the window
    that the slot has left. *)
Lemma convert_outcome (self : Window.t) (st : state) :
  ∃ sig,
    (Window.convert self st).1 = Window.deliver sig (Window.start_conversion self)
    ∧ last (trace (Window.convert self st).2) = Some (Emit sig)
    ∧ Observe.file_signal sig.
Proof.
  unfold Window.convert. cbv zeta.
  destruct (worker_outcome (MainWindow.start_conversion (Window.widgets self)).2 st)
    as (calls & sig & fs & -> & Hcalls & Hsig & _).
  exists sig. cbn [fst snd trace]. rewrite new_signals_one by done.
  split; [done|]. split; [by rewrite !app_assoc, last_snoc|done].
Qed.

Lemma check_outcome (self : Window.t) (st : state) :
  Py.strip (MainWindow.url_input (Window.widgets self)) ≠ [] →
  ∃ sig,
    (Window.check self st).1 = Window.deliver sig (Window.check_transcripts self)
    ∧ last (trace (Window.check self st).2) = Some (Emit sig)
    ∧ Observe.list_signal sig.
Proof.
  intros Hurl. unfold Window.check, Window.started_list_worker.
  rewrite bool_decide_eq_false_2 by done. cbv zeta.
  destruct (list_worker_outcome
              (TranscriptListWorker.mk
                 (Py.strip (MainWindow.url_input (Window.widgets self)))) st)
    as (calls & sig & -> & Hcalls & Hsig).
  exists sig. cbn [fst snd trace]. rewrite new_signals_one by done.
  split; [done|]. split; [by rewrite !app_assoc, last_snoc|done].
Qed.

(** X20. A click on the convert button ends in one of two ways.  The worker
    reports a file: the button is enabled again, the status line and an
    information box name the file.  Or it reports an error: the convert
    button stays disabled, the check button is enabled, and an error box
    shows the message; a new conversion needs a new check first. *)
Theorem convert_click_outcome (self : Window.t) (st : state) :
  let w := (Window.convert self st).1 in
  let st' := (Window.convert self st).2 in
  (∃ filename,
     last (trace st') = Some (Emit (FinishedFile filename))
     ∧ MainWindow.convert_button_enabled (Window.widgets w) = true
     ∧ MainWindow.status_label (Window.widgets w) = py "Saved as: " ++ filename
     ∧ last (Window.dialogs w)
       = Some (Window.InformationBox (py "Success")
                 (py "Transcript saved as:" ++ [10%N] ++ filename)))
  ∨ (∃ msg,
       last (trace st') = Some (Emit (Error msg))
       ∧ MainWindow.convert_button_enabled (Window.widgets w) = false
       ∧ Window.check_button_enabled w = true
       ∧ MainWindow.status_label (Window.widgets w) = py "Error occurred"
       ∧ last (Window.dialogs w)
         = Some (Window.CriticalBox (py "Error")
                   (py "An error occurred:" ++ [10%N] ++ Window.message_text msg))).
Proof.
  cbv zeta. destruct (convert_outcome self st) as (sig & -> & Hlast & Hsig).
  destruct sig as [tl|filename|msg]; [done|left|right].
  - exists filename. cbn. by rewrite last_snoc.
  - exists msg. cbn. by rewrite last_snoc.
Qed.

(** X21. A click on the check button with a URL in the field ends in one of
    two ways, and in both the check button is enabled again.  The worker
    reports the list: the window keeps it and enables the convert button.
    Or it reports an error: the convert button is disabled, both boxes
    are empty, and an error box shows the message. *)
Theorem check_click_outcome (self : Window.t) (st : state) :
  Py.strip (MainWindow.url_input (Window.widgets self)) ≠ [] →
  let w := (Window.check self st).1 in
  let st' := (Window.check self st).2 in
  Window.check_button_enabled w = true
  ∧ ((∃ tl,
        last (trace st') = Some (Emit (FinishedList tl))
        ∧ Window.transcript_list w = Some tl
        ∧ MainWindow.convert_button_enabled (Window.widgets w) = true)
     ∨ (∃ msg,
          last (trace st') = Some (Emit (Error msg))
          ∧ MainWindow.convert_button_enabled (Window.widgets w) = false
          ∧ MainWindow.items (MainWindow.language_combo (Window.widgets w)) = []
          ∧ MainWindow.items (MainWindow.translation_combo (Window.widgets w)) = []
          ∧ last (Window.dialogs w)
            = Some (Window.CriticalBox (py "Error")
                      (py "An error occurred:" ++ [10%N]
                       ++ Window.message_text msg)))).
Proof.
  intros Hurl. cbv zeta.
  destruct (check_outcome self st Hurl) as (sig & -> & Hlast & Hsig).
  destruct sig as [tl|filename|msg]; [|done|].
  - split; [done|]. left. by exists tl.
  - split; [done|]. right. exists msg.
    unfold Window.check_transcripts. rewrite bool_decide_eq_false_2 by done.
    cbn. by rewrite last_snoc.
Qed.

End window_facts.

(** ** The window at work: what holds in every reachable state *)

Section session_facts.
Context `{D : UrllibDeps} `{W : World} `{S : !ShellDeps}.

(** The end of a worker is one signal delivered to the window. *)
Lemma list_job_delivers (job : TranscriptListWorker.t) (st : state) (w : Window.t) :
  ∃ sig,
    Window.deliver_all
      (Window.new_signals st (TranscriptListWorker.run job st).2) w
    = Window.deliver sig w
    ∧ Observe.list_signal sig.
Proof.
  destruct (list_worker_outcome job st) as (calls & sig & -> & Hcalls & Hsig).
  exists sig. cbn [snd]. by rewrite new_signals_one.
Qed.

Lemma job_delivers (job : TranscriptWorker.t) (st : state) (w : Window.t) :
  ∃ sig,
    Window.deliver_all
      (Window.new_signals st (TranscriptWorker.run job st).2) w
    = Window.deliver sig w
    ∧ Observe.file_signal sig.
Proof.
  destruct (worker_outcome job st) as (calls & sig & fs & -> & Hcalls & Hsig & _).
  exists sig. cbn [snd]. by rewrite new_signals_one.
Qed.

(** X22. In every state the application can reach, the convert button is
    enabled, or a conversion is in flight, only if the window has received
    a transcript list before: no conversion starts without a successful
    check. *)
Theorem conversion_needs_a_checked_list (a : Session.app) :
  Session.reachable a →
  (MainWindow.convert_button_enabled (Window.widgets (Session.window a)) = true
   ∨ Session.jobs a ≠ []) →
  is_Some (Window.transcript_list (Session.window a)).
Proof.
  intros [st0 Hreach]. revert a Hreach.
  apply (rtc_ind_r (λ a,
    MainWindow.convert_button_enabled (Window.widgets (Session.window a)) = true
    ∨ Session.jobs a ≠ [] →
    is_Some (Window.transcript_list (Session.window a)))).
  - cbn. intros [|]; done.
  - intros a a' Hrtc Hstep IH. destruct Hstep as [a url l t f|a Hcheck|a Hconv|a job before after Hjobs st'
                      |a job before after Hjobs st'];
      cbn [Session.window Session.jobs].
    + intros Hpre. apply IH. done.
    + intros Hpre. unfold Window.check_transcripts in *.
      destruct (bool_decide _); cbn in *; by apply IH.
    + intros _. cbn. apply IH. by left.
    + subst st'. destruct (list_job_delivers job (Session.world a) (Session.window a))
        as (sig & -> & Hsig).
      destruct sig as [tl|filename|msg]; [|done|]; cbn.
      * by eexists.
      * intros [|Hj]; [done|]. apply IH. by right.
    + subst st'. destruct (job_delivers job (Session.world a) (Session.window a))
        as (sig & -> & Hsig).
      assert (Hlist : is_Some (Window.transcript_list (Session.window a))).
      { apply IH. right. rewrite Hjobs. by destruct before. }
      by destruct sig as [tl|filename|msg].
Qed.

(** X23. In every state the application can reach, the check button is
    disabled only while a list worker is in flight: the end of that worker,
    with a list or with an error, enables it again, so the window cannot
    be left without a way to start over. *)
Theorem check_button_is_never_stuck (a : Session.app) :
  Session.reachable a →
  Window.check_button_enabled (Session.window a) = false →
  Session.list_jobs a ≠ [].
Proof.
  intros [st0 Hreach]. revert a Hreach.
  apply (rtc_ind_r (λ a,
    Window.check_button_enabled (Session.window a) = false →
    Session.list_jobs a ≠ [])).
  - done.
  - intros a a' Hrtc Hstep IH.
    destruct Hstep as [a url l t f|a Hcheck|a Hconv|a job before after Hjobs st'
                      |a job before after Hjobs st'];
      cbn [Session.window Session.list_jobs].
    + done.
    + unfold Window.check_transcripts, Window.started_list_worker.
      destruct (bool_decide _); cbn; [congruence|].
      intros _. by destruct (Session.list_jobs a).
    + unfold Window.start_conversion.
      destruct (MainWindow.start_conversion _). done.
    + subst st'. destruct (list_job_delivers job (Session.world a) (Session.window a))
        as (sig & -> & Hsig).
      by destruct sig.
    + subst st'. destruct (job_delivers job (Session.world a) (Session.window a))
        as (sig & -> & Hsig).
      by destruct sig.
Qed.

(** The format box keeps its five names, and its current entry is one of
    them; so is the name given to each conversion in flight. *)
Lemma format_box_invariant (a : Session.app) :
  Session.reachable a →
  MainWindow.items (MainWindow.formatter_combo (Window.widgets (Session.window a)))
  = Spec.format_name <$> [JSONFormatter; PrettyPrintFormatter; TextFormatter;
                          WebVTTFormatter; SRTFormatter]
  ∧ MainWindow.current_index
      (MainWindow.formatter_combo (Window.widgets (Session.window a))) < 5
  ∧ Forall (λ job, ∃ fmt, TranscriptWorker.formatter_name job = Spec.format_name fmt)
           (Session.jobs a).
Proof.
  intros [st0 Hreach]. revert a Hreach.
  apply (rtc_ind_r (λ a,
    MainWindow.items (MainWindow.formatter_combo (Window.widgets (Session.window a)))
    = Spec.format_name <$> [JSONFormatter; PrettyPrintFormatter; TextFormatter;
                            WebVTTFormatter; SRTFormatter]
    ∧ MainWindow.current_index
        (MainWindow.formatter_combo (Window.widgets (Session.window a))) < 5
    ∧ Forall (λ job, ∃ fmt, TranscriptWorker.formatter_name job = Spec.format_name fmt)
             (Session.jobs a))).
  - cbn. repeat split; [lia|constructor].
  - intros a a' Hrtc Hstep (Hitems & Hindex & Hjobs).
    destruct Hstep as [a url l t f|a Hcheck|a Hconv|a job before after Hj st'
                      |a job before after Hj st'];
      cbn [Session.window Session.jobs].
    + unfold Session.edit, Session.pick.
      cbn [Window.widgets MainWindow.formatter_combo].
      destruct (decide (f < _)) as [Hf|]; cbn [MainWindow.items MainWindow.current_index];
        [|done].
      rewrite Hitems in Hf. cbn in Hf. done.
    + unfold Window.check_transcripts. by destruct (bool_decide _).
    + split; [done|]. split; [done|]. apply Forall_app. split; [done|].
      apply Forall_singleton. cbn.
      unfold MainWindow.currentText. rewrite Hitems.
      destruct (MainWindow.current_index _) as [|[|[|[|[|i]]]]]; [..|lia];
        by eexists.
    + subst st'. destruct (list_job_delivers job (Session.world a) (Session.window a))
        as (sig & -> & Hsig).
      by destruct sig.
    + subst st'. destruct (job_delivers job (Session.world a) (Session.window a))
        as (sig & -> & Hsig).
      rewrite Hj in Hjobs. apply Forall_app in Hjobs as [Hbefore Hafter].
      apply Forall_cons in Hafter as [_ Hafter].
      assert (Hrest : Forall (λ job, ∃ fmt, TranscriptWorker.formatter_name job
                                            = Spec.format_name fmt) (before ++ after))
        by (by apply Forall_app).
      by destruct sig.
Qed.

(** X24. In every state the application can reach, the format name of each
    conversion in flight is in the table of formats: a conversion started
    from the window never fails on an unknown format. *)
Theorem window_formats_are_known (a : Session.app) (job : TranscriptWorker.t) :
  Session.reachable a →
  job ∈ Session.jobs a →
  ∃ fmt, TranscriptWorker.formatters !! TranscriptWorker.formatter_name job
         = Some (fmt, Spec.extension fmt).
Proof.
  intros Hreach Hjob.
  destruct (format_box_invariant a Hreach) as (_ & _ & Hjobs).
  rewrite Forall_forall in Hjobs. destruct (Hjobs job Hjob) as [fmt ->].
  exists fmt. by apply formatters_lookup.
Qed.

(** A successful check, from the click to the delivery of the list. *)
Lemma check_round (a : Session.app) (video_id : pystr) (tl : transcript_list) :
  let url := Py.strip (MainWindow.url_input (Window.widgets (Session.window a))) in
  Window.check_button_enabled (Session.window a) = true →
  url ≠ [] →
  TranscriptListWorker.get_video_id url = Ok (Some video_id) →
  video_id ≠ [] →
  list_transcripts video_id = Ok tl →
  ∃ a',
    rtc Session.step a a'
    ∧ MainWindow.convert_button_enabled (Window.widgets (Session.window a')) = true
    ∧ Window.check_button_enabled (Session.window a') = true
    ∧ MainWindow.url_input (Window.widgets (Session.window a'))
      = MainWindow.url_input (Window.widgets (Session.window a))
    ∧ MainWindow.formatter_combo (Window.widgets (Session.window a'))
      = MainWindow.formatter_combo (Window.widgets (Session.window a))
    ∧ Session.jobs a' = Session.jobs a.
Proof.
  intros url Hcheck Hurl Hid Hne Htl.
  eexists. split.
  - eapply rtc_l; [by apply Session.click_check|].
    eapply rtc_l; [|apply rtc_refl].
    eapply (Session.list_job_ends _ (TranscriptListWorker.mk url) (Session.list_jobs a) []).
    cbn [Session.list_jobs]. unfold Window.started_list_worker. fold url.
    by rewrite bool_decide_eq_false_2.
  - cbn [Session.window Session.jobs Session.world].
    rewrite (list_worker_calls_provider url video_id) by done. rewrite Htl.
    cbn [snd].
    assert (Hsignals := new_signals_one (Session.world a) (files (Session.world a))
                          [CallListTranscripts video_id] (FinishedList tl)
                          ltac:(calls_ok)).
    cbn [app] in Hsignals. rewrite Hsignals.
    unfold Window.check_transcripts. fold url.
    rewrite bool_decide_eq_false_2 by done. done.
Qed.

(** X25. The window does not keep conversions apart: while a conversion is
    in flight the check button still works, and the list it brings enables
    the convert button again.  From its opening the application can reach
    a state with two conversion workers in flight for the same URL. *)
Theorem two_conversions_can_be_in_flight
    (st : state) (url video_id : pystr) (tl : transcript_list) :
  Py.strip url ≠ [] →
  TranscriptListWorker.get_video_id (Py.strip url) = Ok (Some video_id) →
  video_id ≠ [] →
  list_transcripts video_id = Ok tl →
  ∃ a,
    Session.reachable a
    ∧ Session.jobs a = [TranscriptWorker.mk (Py.strip url) (py "JSON");
                        TranscriptWorker.mk (Py.strip url) (py "JSON")].
Proof.
  intros Hurl Hid Hne Htl.
  set (a0 := Session.mkApp (Session.edit url 0 0 0 Window.init) st [] []).
  assert (H0 : rtc Session.step (Session.start st) a0).
  { eapply rtc_l; [apply (Session.user_edits _ url 0 0 0)|apply rtc_refl]. }
  destruct (check_round a0 video_id tl) as (a1 & H1 & Hconv1 & Hcheck1 & Hurl1 & Hfmt1 & Hjobs1);
    try done.
  pose proof (Session.click_convert a1 Hconv1) as H2.
  set (a2 := Session.mkApp _ _ _ _) in H2.
  destruct (check_round a2 video_id tl) as (a3 & H3 & Hconv3 & Hcheck3 & Hurl3 & Hfmt3 & Hjobs3).
  { unfold a2. cbn [Session.window]. unfold Window.start_conversion.
    by destruct (MainWindow.start_conversion _). }
  { unfold a2. cbn [Session.window]. unfold Window.start_conversion.
    cbn. by rewrite Hurl1. }
  { unfold a2. cbn [Session.window]. unfold Window.start_conversion.
    cbn. by rewrite Hurl1. }
  { done. }
  { done. }
  pose proof (Session.click_convert a3 Hconv3) as H4.
  eexists. split.
  - exists st. etransitivity; [exact H0|]. etransitivity; [exact H1|].
    eapply rtc_l; [exact H2|]. etransitivity; [exact H3|].
    eapply rtc_l; [exact H4|apply rtc_refl].
  - cbn [Session.jobs]. rewrite Hjobs3. unfold a2. cbn [Session.jobs].
    rewrite Hjobs1. unfold a0 at 1. cbn [Session.jobs app].
    unfold MainWindow.start_conversion. cbn [snd].
    rewrite Hurl3, Hfmt3. unfold a2. cbn [Session.window].
    unfold Window.start_conversion, MainWindow.start_conversion.
    cbn [Window.widgets MainWindow.url_input MainWindow.formatter_combo].
    rewrite Hurl1, Hfmt1. done.
Qed.

End session_facts.

(** ** The claims on sample inputs *)

Import Samples.

Lemma short_link_yields_stripped_path_witness :
  TranscriptListWorker.get_video_id (py "https://youtu.be/abc?t=1")
  = Ok (Some (py "abc")).
Proof.
  refine (proj1 (short_link_yields_stripped_path
                   (py "https://youtu.be/abc?t=1")
                   (Urllib.mkParseResult (py "https") (py "youtu.be") (py "/abc")
                                         [] (py "t=1") []) _ _));
    vm_compute; reflexivity.
Defined.

Lemma watch_url_yields_v_parameter_witness :
  TranscriptListWorker.get_video_id (py "https://m.youtube.com/watch?t=1&v=xyz&v=abc")
  = Ok (Some (py "xyz")).
Proof.
  refine (proj1 (watch_url_yields_v_parameter
                   (py "https://m.youtube.com/watch?t=1&v=xyz&v=abc")
                   (Urllib.mkParseResult (py "https") (py "m.youtube.com") (py "/watch")
                                         [] (py "t=1&v=xyz&v=abc") [])
                   _ _ _ _));
    vm_compute; reflexivity.
Defined.

(** C1 as first stated fails in four ways.  On a host that also contains
    [youtu.be] the short-link rule comes first and the path is returned,
    not [v].  The tokens are looked for in the network location, not in
    the host: with [youtu.be] as userinfo the host is [www.youtube.com]
    and the path is returned all the same.  The path is searched for the
    text [shorts], not for a segment: a path whose last segment is
    [xshorts] has no segment [shorts], and that last segment is returned.
    And a first [v] without value is passed over for a later one. *)
Lemma watch_url_exceptions :
  (let url := py "https://youtu.be.youtube.com/watch?v=abc" in
   ∃ pr,
     Urllib.urlparse url = Ok pr
     ∧ Spec.host pr = py "youtu.be.youtube.com"
     ∧ Py.contains (py "youtube.com") (Spec.host pr) = true
     ∧ ¬ Spec.has_segment (py "shorts") (Urllib.path pr)
     ∧ Urllib.query pr = py "v=abc"
     ∧ TranscriptListWorker.get_video_id url = Ok (Some (py "watch")))
  ∧ (let url := py "https://youtu.be@www.youtube.com/watch?v=abc" in
     ∃ pr,
       Urllib.urlparse url = Ok pr
       ∧ Spec.host pr = py "www.youtube.com"
       ∧ Py.contains (py "youtu.be") (Spec.host pr) = false
       ∧ ¬ Spec.has_segment (py "shorts") (Urllib.path pr)
       ∧ Urllib.query pr = py "v=abc"
       ∧ TranscriptListWorker.get_video_id url = Ok (Some (py "watch")))
  ∧ (let url := py "https://www.youtube.com/watch/xshorts?v=abc" in
     ∃ pr,
       Urllib.urlparse url = Ok pr
       ∧ Spec.host pr = py "www.youtube.com"
       ∧ Py.split (chr "/") (Urllib.path pr) = [[]; py "watch"; py "xshorts"]
       ∧ ¬ Spec.has_segment (py "shorts") (Urllib.path pr)
       ∧ Urllib.query pr = py "v=abc"
       ∧ TranscriptListWorker.get_video_id url = Ok (Some (py "xshorts")))
  ∧ (let url := py "https://www.youtube.com/watch?v=&v=abc" in
     ∃ pr,
       Urllib.urlparse url = Ok pr
       ∧ Spec.host pr = py "www.youtube.com"
       ∧ ¬ Spec.has_segment (py "shorts") (Urllib.path pr)
       ∧ Urllib.query pr = py "v=" ++ [] ++ py "&v=abc"
       ∧ TranscriptListWorker.get_video_id url = Ok (Some (py "abc"))).
Proof.
  cbv zeta.
  repeat split;
    (eexists; split; [vm_compute; reflexivity|];
     repeat split; try (vm_compute; reflexivity);
     intros Hin; apply list_elem_of_In in Hin; vm_compute in Hin;
     intuition discriminate).
Qed.

Lemma shorts_url_yields_final_segment_witness :
  TranscriptListWorker.get_video_id (py "https://www.youtube.com/shorts/a/b")
  = Ok (Some (py "b")).
Proof.
  refine (proj1 (shorts_url_yields_final_segment
                   (py "https://www.youtube.com/shorts/a/b")
                   (Urllib.mkParseResult (py "https") (py "www.youtube.com")
                                         (py "/shorts/a/b") [] [] []) _ _ _ _));
    vm_compute; reflexivity.
Defined.

(** C3 as first stated fails on a host that also contains [youtu.be]: the
    whole path after its first character is returned, not its final
    segment.  The same happens when [youtu.be] is only the userinfo of
    the network location and the host is [www.youtube.com]. *)
Lemma shorts_url_with_short_link_token :
  (let url := py "https://youtu.be.youtube.com/shorts/abc" in
   ∃ pr,
     Urllib.urlparse url = Ok pr
     ∧ Spec.host pr = py "youtu.be.youtube.com"
     ∧ Py.contains (py "youtube.com") (Spec.host pr) = true
     ∧ Spec.has_segment (py "shorts") (Urllib.path pr)
     ∧ Spec.final_segment (Urllib.path pr) = py "abc"
     ∧ TranscriptListWorker.get_video_id url = Ok (Some (py "shorts/abc"))
     ∧ TranscriptListWorker.get_video_id url ≠ Ok (Some (py "abc")))
  ∧ (let url := py "https://youtu.be@www.youtube.com/shorts/abc" in
     ∃ pr,
       Urllib.urlparse url = Ok pr
       ∧ Spec.host pr = py "www.youtube.com"
       ∧ Py.contains (py "youtu.be") (Spec.host pr) = false
       ∧ Spec.has_segment (py "shorts") (Urllib.path pr)
       ∧ Spec.final_segment (Urllib.path pr) = py "abc"
       ∧ TranscriptListWorker.get_video_id url = Ok (Some (py "shorts/abc"))
       ∧ TranscriptListWorker.get_video_id url ≠ Ok (Some (py "abc"))).
Proof.
  cbv zeta.
  split;
    (eexists; split; [vm_compute; reflexivity|];
     repeat split; try (vm_compute; reflexivity);
     [apply list_elem_of_In; vm_compute; auto|vm_compute; discriminate]).
Qed.

Lemma unrecognized_host_is_rejected_witness :
  TranscriptListWorker.run (TranscriptListWorker.mk (py "https://vimeo.com/12345?v=abc"))
    initial
  = (Ok (), mkState ∅ [Spec.rejection]).
Proof.
  refine (proj1 (proj2 (unrecognized_host_is_rejected
                   (py "https://vimeo.com/12345?v=abc") (py "JSON")
                   (Urllib.mkParseResult (py "https") (py "vimeo.com") (py "/12345")
                                         [] (py "v=abc") [])
                   initial _ _ _)));
    vm_compute; reflexivity.
Defined.

(** C4 as first stated fails when a token stands before the host: in
    [https://youtu.be@vimeo.com/12345] the host is [vimeo.com], yet the
    extractor yields [12345] and the list worker asks the provider for
    it. *)
Lemma unrecognized_host_with_userinfo :
  let url := py "https://youtu.be@vimeo.com/12345" in
  let st := (TranscriptListWorker.run (TranscriptListWorker.mk url) initial).2 in
  (∃ pr,
     Urllib.urlparse url = Ok pr
     ∧ Spec.host pr = py "vimeo.com"
     ∧ Py.contains (py "youtu.be") (Spec.host pr) = false
     ∧ Py.contains (py "youtube.com") (Spec.host pr) = false)
  ∧ TranscriptListWorker.get_video_id url = Ok (Some (py "12345"))
  ∧ trace st = [CallListTranscripts (py "12345");
                Emit (FinishedList [py "English (en)"])]
  ∧ ∃ e, e ∈ trace st ∧ Spec.provider_call e.
Proof.
  cbv zeta.
  assert (Htrace : trace (TranscriptListWorker.run
                            (TranscriptListWorker.mk
                               (py "https://youtu.be@vimeo.com/12345")) initial).2
                   = [CallListTranscripts (py "12345");
                      Emit (FinishedList [py "English (en)"])])
    by (vm_compute; reflexivity).
  split; [|split; [|split]].
  - eexists. split; [vm_compute; reflexivity|].
    repeat split; vm_compute; reflexivity.
  - vm_compute. reflexivity.
  - done.
  - rewrite Htrace. eexists. split; [left|exact I].
Qed.

Lemma empty_short_link_is_rejected_witness :
  TranscriptListWorker.run (TranscriptListWorker.mk (py "https://youtu.be?t=3")) initial
  = (Ok (), mkState ∅ [Spec.rejection]).
Proof.
  refine (proj1 (proj2 (empty_short_link_is_rejected
                   (py "https://youtu.be?t=3") (py "JSON")
                   (Urllib.mkParseResult (py "https") (py "youtu.be") []
                                         [] (py "t=3") [])
                   initial _ _ _)));
    vm_compute; reflexivity.
Defined.

(** C9 as first stated fails: on [https://youtu.be/] the extractor yields
    the empty identifier, and the worker stops there with its error
    message; the provider is not called. *)
Lemma empty_short_link_calls_no_provider :
  let url := py "https://youtu.be/" in
  let st := (TranscriptListWorker.run (TranscriptListWorker.mk url) initial).2 in
  TranscriptListWorker.get_video_id url = Ok (Some [])
  ∧ trace st = [Spec.rejection]
  ∧ ¬ ∃ e, e ∈ trace st ∧ Spec.provider_call e.
Proof.
  cbv zeta.
  assert (Htrace : trace (TranscriptListWorker.run
                            (TranscriptListWorker.mk (py "https://youtu.be/")) initial).2
                   = [Spec.rejection]) by (vm_compute; reflexivity).
  split; [vm_compute; reflexivity|]. split; [done|].
  rewrite Htrace. intros (e & He & Hcall).
  apply list_elem_of_singleton in He as ->. destruct Hcall.
Qed.

Lemma title_lookup_failure_falls_back_witness :
  TranscriptWorker.get_video_title (py "dQw4w9WgXcQ") initial
  = (Ok (JsonString (py "dQw4w9WgXcQ")),
     mkState ∅ [CallRequestsGet (Spec.oembed_url (py "dQw4w9WgXcQ"))]).
Proof.
  refine (proj1 (title_lookup_failure_falls_back (py "dQw4w9WgXcQ") initial _)).
  apply (Spec.network_error _ (LibraryError (py "ConnectionError") (py "unreachable"))).
  reflexivity.
Defined.

(** C6 as first stated fails on an identifier with a forbidden character:
    the lookup fails, the file is written, and its stem is the sanitized
    identifier, not the identifier. *)
Lemma fallback_stem_is_sanitized :
  let url := py "https://youtu.be/a:b" in
  let video_id := py "a:b" in
  let st := (TranscriptWorker.run (TranscriptWorker.mk url (py "JSON")) initial).2 in
  TranscriptWorker.get_video_id url = Ok (Some video_id)
  ∧ Spec.title_lookup_fails video_id
  ∧ last (trace st) = Some (Emit (FinishedFile (py "ab.json")))
  ∧ files st !! py "ab.json" = Some (mkFile (py "utf-8") (py "Hi"))
  ∧ files st !! (video_id ++ py ".json") = None.
Proof.
  cbv zeta. split; [vm_compute; reflexivity|]. split.
  - apply (Spec.network_error _ (LibraryError (py "ConnectionError") (py "unreachable"))).
    reflexivity.
  - repeat split; vm_compute; reflexivity.
Qed.



Lemma language_selection_is_ignored_witness :
  MainWindow.convert (window 0 0) initial = MainWindow.convert (window 1 1) initial
  ∧ ∃ rest,
      trace (MainWindow.convert (window 0 0) initial).2
      = [] ++ [CallRequestsGet (Spec.oembed_url (py "dQw4w9WgXcQ"));
               CallGetTranscript (py "dQw4w9WgXcQ") None] ++ rest.
Proof.
  pose proof (language_selection_is_ignored (window 0 0) (window 1 1) initial
                eq_refl eq_refl) as Hclaim.
  split; [exact (proj1 (proj2 Hclaim))|].
  refine (proj2 (proj2 (proj2 (proj2 Hclaim)))
            (py "dQw4w9WgXcQ") (py "dQw4w9WgXcQ") _ _ _);
    try (vm_compute; reflexivity).
  discriminate.
Defined.

(** ** The further properties on sample inputs *)

Lemma short_link_id_excludes_query_witness :
  (chr "?" ∉ py "abc") ∧ (chr "#" ∉ py "abc").
Proof.
  refine (short_link_id_excludes_query
            (py "https://youtu.be/abc?si=xyz#t=3") (py "abc")
            (Urllib.mkParseResult (py "https") (py "youtu.be") (py "/abc")
                                  [] (py "si=xyz") (py "t=3")) _ _ _);
    vm_compute; reflexivity.
Defined.

Lemma shorts_id_is_one_segment_witness :
  (chr "/" ∉ py "abc") ∧ (chr "?" ∉ py "abc") ∧ (chr "#" ∉ py "abc").
Proof.
  refine (shorts_id_is_one_segment
            (py "https://www.youtube.com/shorts/abc?feature=share") (py "abc")
            (Urllib.mkParseResult (py "https") (py "www.youtube.com") (py "/shorts/abc")
                                  [] (py "feature=share") []) _ _ _ _ _);
    vm_compute; reflexivity.
Defined.

Lemma url_without_double_slash_is_rejected_witness :
  TranscriptListWorker.get_video_id (py "youtu.be/dQw4w9WgXcQ") = Ok None.
Proof.
  refine (proj1 (url_without_double_slash_is_rejected
                   (py "youtu.be/dQw4w9WgXcQ") (py "JSON") initial _ _)).
  - vm_compute. reflexivity.
  - apply (bool_decide_unpack _). vm_compute. exact I.
Defined.

Lemma missing_v_is_reported_witness :
  TranscriptWorker.run (TranscriptWorker.mk (py "https://www.youtube.com/watch?t=5")
                                            (py "JSON")) initial
  = (Ok (), mkState ∅ [Emit (Error (StrOf (KeyError (py "v"))))]).
Proof.
  refine (proj2 (proj2 (missing_v_is_reported
                   (py "https://www.youtube.com/watch?t=5") (py "JSON")
                   (Urllib.mkParseResult (py "https") (py "www.youtube.com") (py "/watch")
                                         [] (py "t=5") [])
                   initial _ _ _ _ _)));
    vm_compute; reflexivity.
Defined.

Lemma unparsable_url_is_reported_witness :
  TranscriptWorker.run (TranscriptWorker.mk (py "https://[youtu.be/abc") (py "JSON"))
                       initial
  = (Ok (), mkState ∅ [Emit (Error (StrOf (ValueError (py "Invalid IPv6 URL"))))]).
Proof.
  refine (proj2 (proj2 (unparsable_url_is_reported
                   (py "https://[youtu.be/abc") (py "JSON")
                   (ValueError (py "Invalid IPv6 URL")) initial _)));
    vm_compute; reflexivity.
Defined.

Lemma unknown_format_fails_after_fetch_witness :
  TranscriptWorker.run (TranscriptWorker.mk (py "https://youtu.be/abc") (py "PDF"))
                       initial
  = (Ok (),
     mkState ∅ [CallRequestsGet (Spec.oembed_url (py "abc"));
                CallGetTranscript (py "abc") None;
                Emit (Error (StrOf (KeyError (py "PDF"))))]).
Proof.
  refine (unknown_format_fails_after_fetch
            (py "https://youtu.be/abc") (py "PDF") (py "abc") (py "abc") (py "Hi")
            initial _ _ _ _ _);
    try (vm_compute; reflexivity).
  discriminate.
Defined.

Lemma provider_failure_is_reported_witness :
  TranscriptWorker.run (H0 := MoreSamples.provider_down)
    (TranscriptWorker.mk (py "https://youtu.be/abc") (py "JSON")) initial
  = (Ok (),
     mkState ∅ [CallRequestsGet (Spec.oembed_url (py "abc"));
                CallGetTranscript (py "abc") None;
                Emit (Error (StrOf (LibraryError (py "TranscriptsDisabled")
                                                 (py "no captions"))))]).
Proof.
  refine (provider_failure_is_reported (H0 := MoreSamples.provider_down)
            (py "https://youtu.be/abc") (py "JSON") (py "abc") (py "abc")
            (LibraryError (py "TranscriptsDisabled") (py "no captions")) initial
            _ _ _ _);
    try (vm_compute; reflexivity).
  discriminate.
Defined.

Lemma unencodable_text_leaves_empty_file_witness :
  let st := (TranscriptWorker.run (H0 := MoreSamples.surrogate_text)
               (TranscriptWorker.mk (py "https://youtu.be/dQw4w9WgXcQ") (py "SRT"))
               (mkState {[ py "dQw4w9WgXcQ.srt" := mkFile (py "utf-8") (py "old") ]} [])).2 in
  files st !! py "dQw4w9WgXcQ.srt" = Some (mkFile (py "utf-8") []).
Proof.
  refine (proj1 (unencodable_text_leaves_empty_file (H0 := MoreSamples.surrogate_text)
            (py "https://youtu.be/dQw4w9WgXcQ") (py "SRT") (py "dQw4w9WgXcQ")
            (py "dQw4w9WgXcQ") (py "Hi") SRTFormatter (py "srt") (py "Hi" ++ [55296%N])
            (mkState {[ py "dQw4w9WgXcQ.srt" := mkFile (py "utf-8") (py "old") ]} [])
            _ _ _ _ _ _ _ _));
    try (vm_compute; reflexivity).
  discriminate.
Defined.

Lemma sanitize_filename_ignores_forbidden_witness :
  TranscriptWorker.sanitize_filename (py "a" ++ chr ":" :: py "b")
  = TranscriptWorker.sanitize_filename (py "a" ++ py "b").
Proof.
  refine (sanitize_filename_ignores_forbidden (py "a") (py "b") (chr ":") _).
  apply (bool_decide_unpack _). vm_compute. exact I.
Defined.

Lemma sanitize_filename_ignores_tail_witness :
  TranscriptWorker.sanitize_filename (replicate 50 (chr "x") ++ py " - part 2")
  = TranscriptWorker.sanitize_filename (replicate 50 (chr "x")).
Proof.
  refine (sanitize_filename_ignores_tail (replicate 50 (chr "x")) (py " - part 2") _).
  vm_compute. reflexivity.
Defined.

Lemma get_video_title_uses_endpoint_title_witness :
  TranscriptWorker.get_video_title (H0 := number_title) (py "abc") initial
  = (Ok (JsonNumber (py "123")),
     mkState ∅ [CallRequestsGet (Spec.oembed_url (py "abc"))]).
Proof.
  refine (get_video_title_uses_endpoint_title (H0 := number_title)
            (py "abc") (JsonNumber (py "123")) () [] [] initial _ _ _);
    try (vm_compute; reflexivity).
  apply Forall_nil_2.
Defined.


Lemma list_worker_reports_provider_witness :
  TranscriptListWorker.run (TranscriptListWorker.mk (py "https://youtu.be/abc")) initial
  = (Ok (), mkState ∅ [CallListTranscripts (py "abc");
                       Emit (FinishedList [py "English (en)"])]).
Proof.
  refine (proj1 (list_worker_reports_provider
                   (py "https://youtu.be/abc") (py "abc") initial _ _)
                [py "English (en)"] _);
    try (vm_compute; reflexivity).
  discriminate.
Defined.

Lemma check_with_blank_url_witness :
  let w := MoreSamples.typed [32%N; 9%N] in
  Window.check (S := MoreSamples.shell) w (mkState ∅ [])
  = (Window.mk (Window.widgets w) (Window.check_button_enabled w)
       (Window.transcript_list w) (Window.list_worker w) (Window.worker w)
       (Window.dialogs w
        ++ [Window.WarningBox (py "Error") (py "Please enter a YouTube URL")]),
     mkState ∅ []).
Proof.
  refine (check_with_blank_url (S := MoreSamples.shell)
            (MoreSamples.typed [32%N; 9%N]) (mkState ∅ []) _).
  apply (bool_decide_unpack _). vm_compute. exact I.
Defined.

Lemma url_padding_is_ignored_witness :
  Window.started_list_worker (MoreSamples.typed (py "  https://youtu.be/abc "))
  = Window.started_list_worker (MoreSamples.typed (py "https://youtu.be/abc")).
Proof.
  refine (proj1 (url_padding_is_ignored
                   (MoreSamples.typed (py "  https://youtu.be/abc "))
                   (MoreSamples.typed (py "https://youtu.be/abc"))
                   (py "  ") (py " ") _ _ _ _)).
  - apply (bool_decide_unpack _). vm_compute. exact I.
  - apply (bool_decide_unpack _). vm_compute. exact I.
  - vm_compute. reflexivity.
  - vm_compute. reflexivity.
Defined.

Lemma check_lists_tracks_witness :
  let w := (Window.check (S := MoreSamples.shell)
              (MoreSamples.typed (py "https://youtu.be/dQw4w9WgXcQ")) (mkState ∅ [])).1 in
  MainWindow.items (MainWindow.language_combo (Window.widgets w))
  = [py "English (en)"; py "German (de)"]
  ∧ MainWindow.items (MainWindow.translation_combo (Window.widgets w))
    = [py "German (de)"; py "French (fr)"].
Proof.
  pose proof (check_lists_tracks (S := MoreSamples.shell)
                (MoreSamples.typed (py "https://youtu.be/dQw4w9WgXcQ")) (mkState ∅ [])
                (py "dQw4w9WgXcQ") [MoreSamples.english; MoreSamples.german]
                ltac:(vm_compute; discriminate) ltac:(vm_compute; reflexivity)
                ltac:(discriminate) ltac:(reflexivity))
    as (_ & _ & _ & _ & Hlanguages & Htranslations & _).
  split; [exact Hlanguages|exact Htranslations].
Defined.

Lemma check_click_outcome_witness :
  Window.check_button_enabled
    (Window.check (S := MoreSamples.shell)
       (MoreSamples.typed (py "https://vimeo.com/12345")) (mkState ∅ [])).1
  = true.
Proof.
  refine (proj1 (check_click_outcome (S := MoreSamples.shell)
                   (MoreSamples.typed (py "https://vimeo.com/12345")) (mkState ∅ []) _)).
  vm_compute. discriminate.
Defined.

Lemma a1_reachable : Session.reachable (S := MoreSamples.shell) MoreSamples.a1.
Proof.
  exists (mkState ∅ []).
  eapply rtc_l; [apply (Session.user_edits _ (py "https://youtu.be/dQw4w9WgXcQ") 0 0 4)|].
  eapply rtc_l; [|apply rtc_refl].
  apply (Session.click_check MoreSamples.a0). reflexivity.
Qed.

Lemma a2_reachable : Session.reachable (S := MoreSamples.shell) MoreSamples.a2.
Proof.
  destruct a1_reachable as [st Hrtc]. exists st.
  eapply rtc_r; [exact Hrtc|].
  apply (Session.list_job_ends MoreSamples.a1
           (TranscriptListWorker.mk (py "https://youtu.be/dQw4w9WgXcQ")) [] []).
  vm_compute. reflexivity.
Qed.

Lemma a3_reachable : Session.reachable (S := MoreSamples.shell) MoreSamples.a3.
Proof.
  destruct a2_reachable as [st Hrtc]. exists st.
  eapply rtc_r; [exact Hrtc|].
  apply (Session.click_convert MoreSamples.a2). vm_compute. reflexivity.
Qed.

Lemma conversion_needs_a_checked_list_witness :
  is_Some (Window.transcript_list (Session.window MoreSamples.a2)).
Proof.
  refine (conversion_needs_a_checked_list (S := MoreSamples.shell) MoreSamples.a2
            a2_reachable _).
  left. vm_compute. reflexivity.
Defined.

Lemma check_button_is_never_stuck_witness :
  Session.list_jobs MoreSamples.a1 ≠ [].
Proof.
  refine (check_button_is_never_stuck (S := MoreSamples.shell) MoreSamples.a1
            a1_reachable _).
  vm_compute. reflexivity.
Defined.

Lemma window_formats_are_known_witness :
  ∃ fmt, TranscriptWorker.formatters !! py "SRT" = Some (fmt, Spec.extension fmt).
Proof.
  refine (window_formats_are_known (S := MoreSamples.shell) MoreSamples.a3
            (TranscriptWorker.mk (py "https://youtu.be/dQw4w9WgXcQ") (py "SRT"))
            a3_reachable _).
  vm_compute. left.
Defined.

Lemma two_conversions_can_be_in_flight_witness :
  ∃ a, Session.reachable (S := MoreSamples.shell) a
       ∧ Session.jobs a
         = [TranscriptWorker.mk (py "https://youtu.be/dQw4w9WgXcQ") (py "JSON");
            TranscriptWorker.mk (py "https://youtu.be/dQw4w9WgXcQ") (py "JSON")].
Proof.
  refine (two_conversions_can_be_in_flight (S := MoreSamples.shell) (mkState ∅ [])
            (py "https://youtu.be/dQw4w9WgXcQ") (py "dQw4w9WgXcQ")
            [MoreSamples.english; MoreSamples.german] _ _ _ _);
    try (vm_compute; reflexivity); vm_compute; discriminate.
Defined.
